(** * NVIDIA inference adapter: OpenAI-compatible schema translation

    A shallow embedding of
    [llama_stack/providers/remote/inference/nvidia/_openai_utils.py]
    and the properties its specification states about it, followed by
    further properties of the same code and of the configure subcommand
    [llama_toolchain/cli/api/configure.py].

    Python objects are modelled as follows.
    - [Optional[T]] is [option T]; an attribute probed with [hasattr] is an
      [attr T], which also records that the attribute may be missing.
    - Truthiness ([if x:], [x or y], [assert x]) is the class [Truthy].
    - Exceptions are the type [exn]; fallible pure code lives in [result],
      code with mutable state in the state-and-exception monad [M].
    - dictionaries that are mutated after they have been stored in another
      dictionary live in a store of objects and are referred to by
      location ([VDict]).
    - [warnings.warn] appends to a log carried by the state.
    - [json.loads] belongs to the Python standard library: the mappers are
      parametrised by it (Section variable [json_loads]); [Json.loads] is a
      small reference decoder used to run them on concrete inputs.
    - validation performed by the constructors of the externally declared
      schema classes is outside the model: a constructor call is a record. *)

From Stdlib Require Import Ascii Floats.PrimFloat.
From stdpp Require Import gmap strings list fin_maps.

Set Warnings "-register-all".
Set Default Proof Using "Type".

Open Scope string_scope.
Open Scope list_scope.

(** ** Python preliminaries *)

Definition float := PrimFloat.float.

(** Exceptions raised by the modelled code. *)
Inductive exn :=
| AssertionError (msg : string)
| JSONDecodeError
| AttributeError
| KeyError (key : string)
| TypeError
| IndexError.

Inductive result (A : Type) :=
| Ok (a : A)
| Raise (e : exn).
Arguments Ok {A} a.
Arguments Raise {A} e.

Definition result_bind {A B} (r : result A) (k : A -> result B) : result B :=
  match r with
  | Ok a => k a
  | Raise e => Raise e
  end.

Declare Scope result_scope.
Delimit Scope result_scope with result.
Notation "x <- r ; k" := (result_bind r (fun x => k))
  (at level 100, r at next level, right associativity) : result_scope.

(** A list comprehension whose element expression may raise: elements are
    evaluated left to right and the first exception ends the evaluation. *)
Fixpoint result_map {A B} (f : A -> result B) (l : list A) : result (list B) :=
  match l with
  | [] => Ok []
  | a :: l' =>
      (b <- f a ; bs <- result_map f l' ; Ok (b :: bs))%result
  end.

(** Truthiness of a Python value. *)
Class Truthy (A : Type) := truthy : A -> bool.

#[global] Instance string_truthy : Truthy string :=
  fun s => match s with EmptyString => false | String _ _ => true end.
#[global] Instance list_truthy {A} : Truthy (list A) :=
  fun l => match l with [] => false | _ :: _ => true end.
#[global] Instance Z_truthy : Truthy Z := fun z => negb (z =? 0)%Z.
#[global] Instance option_truthy {A} `{Truthy A} : Truthy (option A) :=
  fun o => match o with Some a => truthy a | None => false end.

(** [o or d] for an optional [o] and a default [d] of the value type. *)
Definition or_default {A} `{Truthy A} (o : option A) (d : A) : A :=
  match o with
  | Some a => if truthy a then a else d
  | None => d
  end.

(** [a or b] where [a] is a value and [b] is optional. *)
Definition or_optional {A} `{Truthy A} (a : A) (b : option A) : option A :=
  if truthy a then Some a else b.

(** An attribute that the code probes with [hasattr]. *)
Inductive attr (A : Type) :=
| Missing
| PyNone
| Val (a : A).
Arguments Missing {A}.
Arguments PyNone {A}.
Arguments Val {A} a.

Definition hasattr {A} (a : attr A) : bool :=
  match a with Missing => false | _ => true end.

#[global] Instance attr_truthy {A} `{Truthy A} : Truthy (attr A) :=
  fun a => match a with Val v => truthy v | _ => false end.

(** Reading the attribute and then one of its fields: fails when the
    attribute is missing or [None]. *)
Definition getattr {A} (a : attr A) : result A :=
  match a with
  | Val v => Ok v
  | _ => Raise AttributeError
  end.

Definition py_assert (b : bool) (msg : string) : result unit :=
  if b then Ok tt else Raise (AssertionError msg).

(** [l[0]] *)
Definition index0 {A} (l : list A) : result A :=
  match l with
  | x :: _ => Ok x
  | [] => Raise IndexError
  end.

(** ** State and exceptions *)

(** A computation over a mutable state [S] that returns a value or raises;
    the state reached when the exception is raised is kept. *)
Definition M (S A : Type) : Type := S -> result A * S.

Definition ret {S A} (a : A) : M S A := fun s => (Ok a, s).

Definition bind {S A B} (c : M S A) (k : A -> M S B) : M S B :=
  fun s =>
    match c s with
    | (Ok a, s') => k a s'
    | (Raise e, s') => (Raise e, s')
    end.

Definition lift {S A} (r : result A) : M S A := fun s => (r, s).

Definition gets {S A} (f : S -> A) : M S A := fun s => (Ok (f s), s).

Definition modify {S} (f : S -> S) : M S unit := fun s => (Ok tt, f s).

Declare Scope M_scope.
Delimit Scope M_scope with M.
Notation "x <- c ; k" := (bind c (fun x => k))
  (at level 100, c at next level, right associativity) : M_scope.
Notation "c ;; k" := (bind c (fun _ => k))
  (at level 100, k at level 200, right associativity) : M_scope.

(** [for x in l: body(x)] *)
Fixpoint for_each {S A} (body : A -> M S unit) (l : list A) : M S unit :=
  match l with
  | [] => ret tt
  | x :: l' => (body x ;; for_each body l')%M
  end.

(** A list comprehension whose element expression runs in [M]. *)
Fixpoint map_M {S A B} (f : A -> M S B) (l : list A) : M S (list B) :=
  match l with
  | [] => ret []
  | x :: l' => (b <- f x ; bs <- map_M f l' ; ret (b :: bs))%M
  end.

(** ** JSON values, as [json.loads] returns them *)

Inductive json :=
| JNull
| JBool (b : bool)
| JInt (z : Z)
| JFloat (f : float)
| JStr (s : string)
| JArr (l : list json)
| JObj (m : gmap string json).

(** A reference decoder for the JSON texts used in the examples below:
    objects, arrays, strings with the two-character escapes, integers,
    [true], [false] and [null], with optional white space. Numbers with a
    fraction or an exponent and [\u] escapes are outside this subset. A
    later occurrence of a key replaces an earlier one, as in Python. *)
Module Json.

Definition dquote : ascii := "034"%char.
Definition backslash : ascii := "092"%char.

Definition is_ws (c : ascii) : bool :=
  (Ascii.eqb c " " || Ascii.eqb c "009" || Ascii.eqb c "010" || Ascii.eqb c "013")%char.

Fixpoint skip_ws (s : string) : string :=
  match s with
  | String c r => if is_ws c then skip_ws r else s
  | EmptyString => s
  end.

Definition digit_of (c : ascii) : option Z :=
  let n := Z.of_nat (nat_of_ascii c) in
  if ((48 <=? n) && (n <=? 57))%Z then Some (n - 48)%Z else None.

(** The digits at the head of [s], read in base ten after [acc]. *)
Fixpoint digits (s : string) (acc : Z) (seen : bool) : option (Z * string) :=
  match s with
  | String c r =>
      match digit_of c with
      | Some d => digits r (10 * acc + d)%Z true
      | None => if seen then Some (acc, s) else None
      end
  | EmptyString => if seen then Some (acc, s) else None
  end.

Definition unescape (e : ascii) : option ascii :=
  if Ascii.eqb e dquote then Some dquote
  else if Ascii.eqb e backslash then Some backslash
  else if Ascii.eqb e "/" then Some "/"%char
  else if Ascii.eqb e "n" then Some "010"%char
  else if Ascii.eqb e "t" then Some "009"%char
  else if Ascii.eqb e "r" then Some "013"%char
  else if Ascii.eqb e "b" then Some "008"%char
  else if Ascii.eqb e "f" then Some "012"%char
  else None.

(** The characters of a string literal after its opening quote, up to the
    closing quote. *)
Fixpoint chars (s : string) : option (string * string) :=
  match s with
  | EmptyString => None
  | String c r =>
      if Ascii.eqb c dquote then Some (EmptyString, r)
      else if Ascii.eqb c backslash then
        match r with
        | String e r' =>
            match unescape e, chars r' with
            | Some u, Some (t, rest) => Some (String u t, rest)
            | _, _ => None
            end
        | EmptyString => None
        end
      else if (nat_of_ascii c <? 32)%nat then None
      else
        match chars r with
        | Some (t, rest) => Some (String c t, rest)
        | None => None
        end
  end.

Definition literal (lit : string) (v : json) (s : string) : option (json * string) :=
  if String.prefix lit s
  then Some (v, String.substring (String.length lit)
                  (String.length s - String.length lit) s)
  else None.

Fixpoint value (fuel : nat) (s : string) {struct fuel} : option (json * string) :=
  match fuel with
  | O => None
  | S fuel =>
      match skip_ws s with
      | String "{" r =>
          match skip_ws r with
          | String "}" r' => Some (JObj ∅, r')
          | r1 => members fuel r1 ∅
          end
      | String "[" r =>
          match skip_ws r with
          | String "]" r' => Some (JArr [], r')
          | r1 => elements fuel r1 []
          end
      | String "-" r =>
          match digits r 0 false with
          | Some (n, rest) => Some (JInt (- n), rest)
          | None => None
          end
      | String c r as s1 =>
          if Ascii.eqb c dquote then
            match chars r with
            | Some (t, rest) => Some (JStr t, rest)
            | None => None
            end
          else if Ascii.eqb c "t" then literal "true" (JBool true) s1
          else if Ascii.eqb c "f" then literal "false" (JBool false) s1
          else if Ascii.eqb c "n" then literal "null" JNull s1
          else
            match digits s1 0 false with
            | Some (n, rest) => Some (JInt n, rest)
            | None => None
            end
      | EmptyString => None
      end
  end
with members (fuel : nat) (s : string) (acc : gmap string json) {struct fuel}
  : option (json * string) :=
  match fuel with
  | O => None
  | S fuel =>
      match skip_ws s with
      | String c r =>
          if Ascii.eqb c dquote then
            match chars r with
            | Some (k, rest) =>
                match skip_ws rest with
                | String ":" rest1 =>
                    match value fuel rest1 with
                    | Some (v, rest2) =>
                        match skip_ws rest2 with
                        | String "," rest3 => members fuel rest3 (<[k := v]> acc)
                        | String "}" rest3 => Some (JObj (<[k := v]> acc), rest3)
                        | _ => None
                        end
                    | None => None
                    end
                | _ => None
                end
            | None => None
            end
          else None
      | EmptyString => None
      end
  end
with elements (fuel : nat) (s : string) (acc : list json) {struct fuel}
  : option (json * string) :=
  match fuel with
  | O => None
  | S fuel =>
      match value fuel s with
      | Some (v, rest) =>
          match skip_ws rest with
          | String "," rest1 => elements fuel rest1 (acc ++ [v])
          | String "]" rest1 => Some (JArr (acc ++ [v]), rest1)
          | _ => None
          end
      | None => None
      end
  end.

(** A text of [n] characters never nests deeper than [n]. *)
Definition loads (s : string) : option json :=
  match value (S (String.length s)) s with
  | Some (v, rest) =>
      match skip_ws rest with
      | EmptyString => Some v
      | _ => None
      end
  | None => None
  end.

(** [quoted s] is [s] between double quotes. *)
Definition quoted (s : string) : string :=
  String dquote (s +:+ String dquote EmptyString).

End Json.

(** ** Stack schema (llama_models / llama_stack.apis.inference) *)

Module StopReason.
Inductive t := end_of_turn | end_of_message | out_of_tokens.
Definition value (r : t) : string :=
  match r with
  | end_of_turn => "end_of_turn"
  | end_of_message => "end_of_message"
  | out_of_tokens => "out_of_tokens"
  end.
End StopReason.

(** Members of a plain [Enum] are truthy. *)
#[global] Instance StopReason_truthy : Truthy StopReason.t := fun _ => true.

Module ChatCompletionResponseEventType.
Inductive t := start | progress | complete.
End ChatCompletionResponseEventType.

Module ToolCallParseStatus.
Inductive t := started | in_progress | failure | success.
End ToolCallParseStatus.

Module ToolChoice.
Inductive t := auto | required.
Definition value (c : t) : string :=
  match c with
  | auto => "auto"
  | required => "required"
  end.
End ToolChoice.

#[global] Instance ToolChoice_truthy : Truthy ToolChoice.t := fun _ => true.

Module ToolCall.
Record t := mk { call_id : string; tool_name : string; arguments : json }.
End ToolCall.

Module TokenLogProbs.
Record t := mk { logprobs_by_token : gmap string float }.
End TokenLogProbs.

Module ToolCallDelta.
Inductive content_t := Text (s : string) | Call (c : ToolCall.t).
Record t := mk { content : content_t; parse_status : ToolCallParseStatus.t }.
End ToolCallDelta.

Module CompletionMessage.
Record t := mk {
  content : string;
  stop_reason : StopReason.t;
  tool_calls : list ToolCall.t }.
End CompletionMessage.

Module ChatCompletionResponse.
Record t := mk {
  completion_message : CompletionMessage.t;
  logprobs : option (list TokenLogProbs.t) }.
End ChatCompletionResponse.

Module ChatCompletionResponseEvent.
Inductive delta_t := Str (s : string) | Tool (d : ToolCallDelta.t).
(** [logprobs] and [stop_reason] default to [None] when the constructor call
    does not pass them. *)
Record t := mk {
  event_type : ChatCompletionResponseEventType.t;
  delta : delta_t;
  logprobs : option (list TokenLogProbs.t);
  stop_reason : option StopReason.t }.
End ChatCompletionResponseEvent.

Module ChatCompletionResponseStreamChunk.
Record t := mk { event : ChatCompletionResponseEvent.t }.
End ChatCompletionResponseStreamChunk.

(** ** Provider schema (openai.types.chat) *)

Module Function.
Record t := mk { arguments : string; name : string }.
End Function.

Module OpenAIChatCompletionMessageToolCall.
Record t := mk { id : string; function : Function.t }.
End OpenAIChatCompletionMessageToolCall.

Module TopLogprob.
Record t := mk { token : string; logprob : float }.
End TopLogprob.

Module ChatCompletionTokenLogprob.
Record t := mk {
  token : string;
  logprob : float;
  top_logprobs : list TopLogprob.t }.
End ChatCompletionTokenLogprob.

Module OpenAIChoiceLogprobs.
Record t := mk { content : option (list ChatCompletionTokenLogprob.t) }.
End OpenAIChoiceLogprobs.

(** Instances of the provider's model classes are truthy. *)
#[global] Instance OpenAIChoiceLogprobs_truthy : Truthy OpenAIChoiceLogprobs.t :=
  fun _ => true.

Module ChatCompletionMessage.
Record t := mk {
  content : option string;
  tool_calls : option (list OpenAIChatCompletionMessageToolCall.t) }.
End ChatCompletionMessage.

#[global] Instance ChatCompletionMessage_truthy : Truthy ChatCompletionMessage.t :=
  fun _ => true.

Module OpenAIChoice.
Record t := mk {
  message : attr ChatCompletionMessage.t;
  finish_reason : attr string;
  logprobs : option OpenAIChoiceLogprobs.t }.
End OpenAIChoice.

Module ChoiceDelta.
Record t := mk {
  content : option string;
  tool_calls : option (list OpenAIChatCompletionMessageToolCall.t) }.
End ChoiceDelta.

(** The [Choice] of a streamed chunk (different from the non-streamed one). *)
Module ChunkChoice.
Record t := mk {
  delta : ChoiceDelta.t;
  finish_reason : option string;
  logprobs : option OpenAIChoiceLogprobs.t }.
End ChunkChoice.

Module OpenAIChatCompletionChunk.
Record t := mk { choices : list ChunkChoice.t }.
End OpenAIChatCompletionChunk.

(** ** The response mappers *)

(** The table of [_convert_openai_finish_reason]. *)
Definition finish_reason_table : gmap string StopReason.t :=
  {[ "stop" := StopReason.end_of_turn;
     "length" := StopReason.out_of_tokens;
     "tool_calls" := StopReason.end_of_message ]}.

(** [{...}.get(finish_reason, StopReason.end_of_turn)]; the argument may be
    [None], which is not a key of the table. *)
Definition _convert_openai_finish_reason (finish_reason : option string)
  : StopReason.t :=
  default StopReason.end_of_turn (finish_reason ≫= (finish_reason_table !!.)).

(** The dictionary comprehension [{lp.token: lp.logprob for lp in tops}]: a
    later entry for the same token replaces an earlier one. *)
Definition logprobs_by_token_of (tops : list TopLogprob.t) : gmap string float :=
  foldl (fun d lp => <[TopLogprob.token lp := TopLogprob.logprob lp]> d) ∅ tops.

(** Iterating over [logprobs.content] raises [TypeError] when it is [None]. *)
Definition _convert_openai_logprobs (logprobs : option OpenAIChoiceLogprobs.t)
  : result (option (list TokenLogProbs.t)) :=
  if negb (truthy logprobs) then Ok None
  else
    match logprobs ≫= OpenAIChoiceLogprobs.content with
    | Some contents =>
        Ok (Some (map (fun content =>
                         TokenLogProbs.mk
                           (logprobs_by_token_of
                              (ChatCompletionTokenLogprob.top_logprobs content)))
                      contents))
    | None => Raise TypeError
    end.

(** *** The state of the stream mapper *)

(** The generator returned by [_event_type_generator] is either suspended
    before its first [yield] or inside its [while True] loop. *)
Inductive event_type_generator := NotStarted | Emitting.

Definition _event_type_generator : event_type_generator := NotStarted.

Definition next (g : event_type_generator)
  : ChatCompletionResponseEventType.t * event_type_generator :=
  match g with
  | NotStarted => (ChatCompletionResponseEventType.start, Emitting)
  | Emitting => (ChatCompletionResponseEventType.progress, Emitting)
  end.

(** The local variables of one run of the stream mapper, together with what
    it has yielded to its consumer and the warnings it has issued so far. *)
Module Frame.
Record t := mk {
  stop_reason : option StopReason.t;
  event_type : event_type_generator;
  yielded : list ChatCompletionResponseStreamChunk.t;
  warned : list string }.
End Frame.

Definition initial_frame : Frame.t :=
  Frame.mk None _event_type_generator [] [].

Definition set_stop_reason (r : option StopReason.t) : M Frame.t unit :=
  modify (fun fr => Frame.mk r (Frame.event_type fr) (Frame.yielded fr) (Frame.warned fr)).

(** [next(event_type)] *)
Definition next_event_type : M Frame.t ChatCompletionResponseEventType.t :=
  fun fr =>
    let '(ty, g) := next (Frame.event_type fr) in
    (Ok ty, Frame.mk (Frame.stop_reason fr) g (Frame.yielded fr) (Frame.warned fr)).

(** [yield ChatCompletionResponseStreamChunk(event=ev)] *)
Definition yield (ev : ChatCompletionResponseEvent.t) : M Frame.t unit :=
  modify (fun fr =>
    Frame.mk (Frame.stop_reason fr) (Frame.event_type fr)
      (Frame.yielded fr ++ [ChatCompletionResponseStreamChunk.mk ev])
      (Frame.warned fr)).

Definition stream_warn (msg : string) : M Frame.t unit :=
  modify (fun fr =>
    Frame.mk (Frame.stop_reason fr) (Frame.event_type fr) (Frame.yielded fr)
      (Frame.warned fr ++ [msg])).

Section Mappers.

(** [json.loads] on a string: the decoded value, or [None] when the text is
    not valid JSON. *)
Variable json_loads : string -> option json.

(** The call [json.loads(s)], which raises on a text that is not valid. *)
Definition loads (s : string) : result json :=
  match json_loads s with
  | Some v => Ok v
  | None => Raise JSONDecodeError
  end.

Definition _convert_openai_tool_calls
  (tool_calls : option (list OpenAIChatCompletionMessageToolCall.t))
  : result (list ToolCall.t) :=
  if negb (truthy tool_calls) then Ok []
  else
    result_map
      (fun call =>
         (arguments <- loads
            (Function.arguments (OpenAIChatCompletionMessageToolCall.function call)) ;
          Ok (ToolCall.mk
                (OpenAIChatCompletionMessageToolCall.id call)
                (Function.name (OpenAIChatCompletionMessageToolCall.function call))
                arguments))%result)
      (default [] tool_calls).

Definition convert_openai_chat_completion_choice (choice : OpenAIChoice.t)
  : result ChatCompletionResponse.t :=
  (_ <- py_assert
          (hasattr (OpenAIChoice.message choice)
           && truthy (OpenAIChoice.message choice))
          "error in server response: message not found" ;
   _ <- py_assert
          (hasattr (OpenAIChoice.finish_reason choice)
           && truthy (OpenAIChoice.finish_reason choice))
          "error in server response: finish_reason not found" ;
   message <- getattr (OpenAIChoice.message choice) ;
   finish_reason <- getattr (OpenAIChoice.finish_reason choice) ;
   tool_calls <- _convert_openai_tool_calls (ChatCompletionMessage.tool_calls message) ;
   logprobs <- _convert_openai_logprobs (OpenAIChoice.logprobs choice) ;
   Ok (ChatCompletionResponse.mk
         (CompletionMessage.mk
            (or_default (ChatCompletionMessage.content message) "")
            (_convert_openai_finish_reason (Some finish_reason))
            tool_calls)
         logprobs))%result.

(** *** The stream mapper *)

(** The body of [async for chunk in stream]. Keyword arguments of a call are
    evaluated left to right, so [next(event_type)] runs before the delta and
    the log-probabilities are computed. Inside a branch guarded by the
    truthiness of an optional value, [default] only unwraps that value. The
    records of a streamed tool-call list are taken to be fully formed, as
    the argument type of [_convert_openai_tool_calls] declares them. *)
Definition stream_body (chunk : OpenAIChatCompletionChunk.t) : M Frame.t unit :=
  (choice <- lift (index0 (OpenAIChatCompletionChunk.choices chunk)) ;
   stop_reason <- gets Frame.stop_reason ;
   set_stop_reason
     (or_optional
        (_convert_openai_finish_reason (ChunkChoice.finish_reason choice))
        stop_reason) ;;
   let delta := ChunkChoice.delta choice in
   if truthy (ChoiceDelta.tool_calls delta) then
     (if truthy (ChoiceDelta.content delta) then
        ty <- next_event_type ;
        logprobs <- lift (_convert_openai_logprobs (ChunkChoice.logprobs choice)) ;
        yield (ChatCompletionResponseEvent.mk ty
                 (ChatCompletionResponseEvent.Str
                    (default "" (ChoiceDelta.content delta)))
                 logprobs None)
      else ret tt) ;;
     (if (1 <? length (default [] (ChoiceDelta.tool_calls delta)))%nat then
        stream_warn
          "multiple tool calls found in a single delta, using the first, ignoring the rest"
      else ret tt) ;;
     ty <- next_event_type ;
     calls <- lift (_convert_openai_tool_calls (ChoiceDelta.tool_calls delta)) ;
     call <- lift (index0 calls) ;
     logprobs <- lift (_convert_openai_logprobs (ChunkChoice.logprobs choice)) ;
     yield (ChatCompletionResponseEvent.mk ty
              (ChatCompletionResponseEvent.Tool
                 (ToolCallDelta.mk (ToolCallDelta.Call call)
                    ToolCallParseStatus.success))
              logprobs None)
   else
     ty <- next_event_type ;
     logprobs <- lift (_convert_openai_logprobs (ChunkChoice.logprobs choice)) ;
     yield (ChatCompletionResponseEvent.mk ty
              (ChatCompletionResponseEvent.Str
                 (or_default (ChoiceDelta.content delta) ""))
              logprobs None))%M.

(** The whole generator: the loop over the chunks, then the terminal event.
    An exception raised by the body escapes the loop, so nothing after it
    runs. *)
Definition convert_openai_chat_completion_stream
  (stream : list OpenAIChatCompletionChunk.t) : M Frame.t unit :=
  (for_each stream_body stream ;;
   stop_reason <- gets Frame.stop_reason ;
   yield (ChatCompletionResponseEvent.mk
            ChatCompletionResponseEventType.complete
            (ChatCompletionResponseEvent.Str "")
            None stop_reason))%M.

(** What the consumer of the generator observes: the events in the order
    they were yielded, and how the iteration ended ([None]: the generator
    returned; [Some e]: it raised [e]). *)
Definition run_stream (stream : list OpenAIChatCompletionChunk.t)
  : list ChatCompletionResponseStreamChunk.t * option exn :=
  let '(r, fr) := convert_openai_chat_completion_stream stream initial_frame in
  (Frame.yielded fr, match r with Ok _ => None | Raise e => Some e end).

End Mappers.

(** ** The request mapper *)

(** *** Request schema *)

(** Modelled from the spec: the stack request types are declared outside
    the sources (llama_models, llama_stack.apis.inference). Their fields
    follow the spec's data model; the strategy is compared with string
    literals by the code, so it is a string here. *)
Module SamplingParams.
Record t := mk {
  strategy : string;
  temperature : float;
  top_p : float;
  top_k : Z;
  max_tokens : option Z;
  repetition_penalty : float }.
End SamplingParams.

#[global] Instance SamplingParams_truthy : Truthy SamplingParams.t := fun _ => true.

Module LogProbConfig.
Record t := mk { top_k : Z }.
End LogProbConfig.

#[global] Instance LogProbConfig_truthy : Truthy LogProbConfig.t := fun _ => true.

Module ToolDefinition.
Record t := mk { tool_name : string; description : option string }.
End ToolDefinition.

Module Message.
Record t := mk {
  role : string;
  content : string;
  stop_reason : option StopReason.t }.
End Message.

Module ChatCompletionRequest.
Record t := mk {
  model : string;
  messages : list Message.t;
  sampling_params : option SamplingParams.t;
  tools : option (list ToolDefinition.t);
  tool_choice : option ToolChoice.t;
  stream : option bool;
  logprobs : option LogProbConfig.t }.
End ChatCompletionRequest.

(** *** Python values and the object store *)

Definition loc := positive.

Inductive pyval :=
| VNone
| VBool (b : bool)
| VInt (z : Z)
| VFloat (f : float)
| VStr (s : string)
| VStopReason (r : StopReason.t)
| VTools (ts : list ToolDefinition.t)
| VList (l : list pyval)
| VDict (l : loc)
| VBytesDict (kvs : list (string * string)).

Definition of_optional_bool (o : option bool) : pyval :=
  match o with Some b => VBool b | None => VNone end.

(** The dictionaries created so far, by identity, and the warnings issued.
    [VDict l] is a reference: two values [VDict l] name the same object, and
    an update through one is seen through the other. [VBytesDict] is a
    dictionary literal with [bytes] keys and values that nothing mutates. *)
Module Store.
Record t := mk {
  objects : gmap loc (gmap string pyval);
  warned : list string }.
End Store.

Definition empty_store : Store.t := Store.mk ∅ [].

(** [dict(...)] or [{...}]: a new object. *)
Definition new_dict (d : gmap string pyval) : M Store.t loc :=
  fun σ =>
    let l := fresh (dom (Store.objects σ)) in
    (Ok l, Store.mk (<[l := d]> (Store.objects σ)) (Store.warned σ)).

(** [d.update(k=v)] *)
Definition dict_update (l : loc) (k : string) (v : pyval) : M Store.t unit :=
  modify (fun σ =>
    Store.mk (alter (fun d => <[k := v]> d) l (Store.objects σ)) (Store.warned σ)).

(** [d[k]] *)
Definition dict_getitem (l : loc) (k : string) : M Store.t pyval :=
  fun σ =>
    match Store.objects σ !! l ≫= (fun d => d !! k) with
    | Some v => (Ok v, σ)
    | None => (Raise (KeyError k), σ)
    end.

(** [k in d] *)
Definition dict_contains (l : loc) (k : string) : M Store.t bool :=
  gets (fun σ => bool_decide (is_Some (Store.objects σ !! l ≫= (fun d => d !! k)))).

(** [warnings.warn(msg)] *)
Definition warn (msg : string) : M Store.t unit :=
  modify (fun σ => Store.mk (Store.objects σ) (Store.warned σ ++ [msg])).

(** [v == s] for a string literal [s] *)
Definition eq_str (v : pyval) (s : string) : bool :=
  match v with
  | VStr s' => String.eqb s' s
  | _ => false
  end.

(** [v.value] *)
Definition enum_value (v : pyval) : result pyval :=
  match v with
  | VStopReason r => Ok (VStr (StopReason.value r))
  | _ => Raise AttributeError
  end.

(** Modelled from the spec: [message.dict()] of the externally declared
    message classes: the fields as a new dictionary, [stop_reason] only
    for a message that has one. *)
Definition Message_dict (message : Message.t) : M Store.t loc :=
  new_dict
    (let d : gmap string pyval :=
       {[ "role" := VStr (Message.role message);
          "content" := VStr (Message.content message) ]} in
     match Message.stop_reason message with
     | Some r => <["stop_reason" := VStopReason r]> d
     | None => d
     end).

(** *** The mapper *)

Definition _convert_message (message : Message.t) : M Store.t pyval :=
  (out_dict <- Message_dict message ;
   role <- dict_getitem out_dict "role" ;
   (if eq_str role "ipython" then dict_update out_dict "role" (VStr "tool")
    else ret tt) ;;
   has_stop_reason <- dict_contains out_dict "stop_reason" ;
   (if has_stop_reason : bool then
      stop_reason <- dict_getitem out_dict "stop_reason" ;
      value <- lift (enum_value stop_reason) ;
      dict_update out_dict "stop_reason" value
    else ret tt) ;;
   ret (VDict out_dict))%M.

Definition convert_chat_completion_request
  (request : ChatCompletionRequest.t) (n : Z) : M Store.t loc :=
  (nvext <- new_dict ∅ ;
   messages <- map_M _convert_message (ChatCompletionRequest.messages request) ;
   extra_body <- new_dict {[ "nvext" := VDict nvext ]} ;
   payload <- new_dict
     {[ "model" := VStr (ChatCompletionRequest.model request);
        "messages" := VList messages;
        "stream" := of_optional_bool (ChatCompletionRequest.stream request);
        "n" := VInt n;
        "extra_body" := VDict extra_body;
        "extra_headers" :=
          VBytesDict [("User-Agent", "llama-stack: nvidia-inference-adapter")] ]} ;
   (if truthy (ChatCompletionRequest.tools request) then
      dict_update payload "tools"
        (VTools (default [] (ChatCompletionRequest.tools request))) ;;
      match ChatCompletionRequest.tool_choice request with
      | Some tool_choice =>
          if truthy tool_choice then
            dict_update payload "tool_choice" (VStr (ToolChoice.value tool_choice))
          else ret tt
      | None => ret tt
      end
    else ret tt) ;;
   match ChatCompletionRequest.logprobs request with
   | Some logprobs =>
       if truthy logprobs then
         dict_update payload "logprobs" (VBool true) ;;
         dict_update payload "top_logprobs" (VInt (LogProbConfig.top_k logprobs))
       else ret tt
   | None => ret tt
   end ;;
   match ChatCompletionRequest.sampling_params request with
   | Some sampling_params =>
       if truthy sampling_params then
         dict_update nvext "repetition_penalty"
           (VFloat (SamplingParams.repetition_penalty sampling_params)) ;;
         match SamplingParams.max_tokens sampling_params with
         | Some max_tokens =>
             if truthy max_tokens then dict_update payload "max_tokens" (VInt max_tokens)
             else ret tt
         | None => ret tt
         end ;;
         if String.eqb (SamplingParams.strategy sampling_params) "top_p" then
           dict_update nvext "top_k" (VInt (-1)) ;;
           dict_update payload "top_p" (VFloat (SamplingParams.top_p sampling_params))
         else if String.eqb (SamplingParams.strategy sampling_params) "top_k" then
           (if negb (SamplingParams.top_k sampling_params =? -1)%Z
               && (SamplingParams.top_k sampling_params <? 1)%Z
            then warn "top_k must be -1 or >= 1" else ret tt) ;;
           dict_update nvext "top_k" (VInt (SamplingParams.top_k sampling_params))
         else if String.eqb (SamplingParams.strategy sampling_params) "greedy" then
           dict_update nvext "top_k" (VInt (-1)) ;;
           dict_update payload "temperature"
             (VFloat (SamplingParams.temperature sampling_params))
         else ret tt
       else ret tt
   | None => ret tt
   end ;;
   ret payload)%M.

(** Reading the result: [payload[k]] and [payload["extra_body"]["nvext"][k]]
    in a store. *)
Definition payload_get (σ : Store.t) (payload : loc) (k : string) : option pyval :=
  Store.objects σ !! payload ≫= (fun d => d !! k).

Definition nvext_get (σ : Store.t) (payload : loc) (k : string) : option pyval :=
  match payload_get σ payload "extra_body" with
  | Some (VDict extra_body) =>
      match payload_get σ extra_body "nvext" with
      | Some (VDict nvext) => payload_get σ nvext k
      | _ => None
      end
  | _ => None
  end.

(** ** The configure subcommand

    A shallow embedding of [llama_toolchain/cli/api/configure.py]. The
    command works on the file system and the terminal: the world it runs in
    is the contents of the files, by path, and the lines printed. Its
    collaborators are declared outside the sources and are parameters of
    the model: the resolution of a path under the builds directory, the
    YAML loader together with the [PackageConfig] constructor, the
    interactive [configure_api_providers], and the serialisers. *)

Module World.
Record t := mk {
  files : gmap string string;
  printed : list string }.
End World.

(** The exceptions of the command. [SystemExit] is how
    [ArgumentParser.error] ends the program, with the status and the
    message it was given; [CollaboratorError] is an exception of a
    collaborator, by the name of its class. *)
Inductive cli_exn :=
| SystemExit (status : Z) (message : string)
| FileNotFoundError (path : string)
| CollaboratorError (name : string).

Inductive cli_result (A : Type) :=
| Returned (a : A)
| Raised (e : cli_exn).
Arguments Returned {A} a.
Arguments Raised {A} e.

(** A command: it changes the world and returns or raises. *)
Definition Cmd (A : Type) : Type := World.t -> cli_result A * World.t.

Definition cli_ret {A} (a : A) : Cmd A := fun w => (Returned a, w).

Definition cli_bind {A B} (c : Cmd A) (k : A -> Cmd B) : Cmd B :=
  fun w =>
    match c w with
    | (Returned a, w') => k a w'
    | (Raised e, w') => (Raised e, w')
    end.

Definition cli_lift {A} (r : cli_result A) : Cmd A := fun w => (r, w).

Declare Scope Cmd_scope.
Delimit Scope Cmd_scope with Cmd.
Notation "x <- c ; k" := (cli_bind c (fun x => k))
  (at level 100, c at next level, right associativity) : Cmd_scope.
Notation "c ;; k" := (cli_bind c (fun _ => k))
  (at level 100, k at level 200, right associativity) : Cmd_scope.

(** [path.exists()] *)
Definition path_exists (path : string) : Cmd bool :=
  fun w => (Returned (bool_decide (is_Some (World.files w !! path))), w).

(** [open(path, "r")] and reading the whole file. *)
Definition read_file (path : string) : Cmd string :=
  fun w =>
    match World.files w !! path with
    | Some text => (Returned text, w)
    | None => (Raised (FileNotFoundError path), w)
    end.

(** [open(path, "w")]: the file is created or truncated when it is opened. *)
Definition open_for_writing (path : string) : Cmd unit :=
  fun w => (Returned tt, World.mk (<[path := ""]> (World.files w)) (World.printed w)).

(** [fp.write(text)]; the text is in the file when the [with] block is
    left. *)
Definition file_write (path : string) (text : string) : Cmd unit :=
  fun w =>
    (Returned tt,
     World.mk (alter (fun old => old +:+ text) path (World.files w)) (World.printed w)).

(** [print(line)] *)
Definition py_print (line : string) : Cmd unit :=
  fun w => (Returned tt, World.mk (World.files w) (World.printed w ++ [line])).

(** [parser.error(message)]: argparse reports the message and exits with
    status 2. *)
Definition parser_error (message : string) : Cmd unit :=
  fun w => (Raised (SystemExit 2 message), w).

(** [s.endswith(suffix)] *)
Fixpoint endswith (s suffix : string) : bool :=
  String.eqb s suffix
  || match s with
     | EmptyString => false
     | String _ s' => endswith s' suffix
     end.

(** [PackageConfig]: its [providers] field and its other fields. *)
Module PackageConfig.
Record t (P R : Type) := mk { providers : P; other_fields : R }.
Arguments mk {P R} providers other_fields.
Arguments providers {P R} t.
Arguments other_fields {P R} t.
End PackageConfig.

(** The name of the build file: [name = args.build_name], with the
    extension appended when it is missing. *)
Definition build_file_name (build_name : string) : string :=
  if negb (endswith build_name ".yaml") then build_name +:+ ".yaml" else build_name.

Definition could_not_find (config_file : string) : string :=
  "Could not find " +:+ config_file +:+ ". Please run `llama api build` first".

Definition configuration_written (config_file : string) : string :=
  "YAML configuration has been written to " +:+ config_file.

Section Configure.

Context {P R : Type}.

(** [BUILDS_BASE_DIR / api / name], as the string of the path. *)
Variable builds_path : string -> string -> string.

(** The [PackageConfig] built from [yaml.safe_load(f)], on the text of the
    file. *)
Variable load_config : string -> cli_result (PackageConfig.t P R).

(** The interactive configuration of the providers. *)
Variable configure_api_providers : P -> Cmd P.

(** [json.loads(json.dumps(config.dict(), cls=EnumEncoder))] *)
Variable to_json : PackageConfig.t P R -> cli_result json.

(** [yaml.dump(to_write, sort_keys=False)] *)
Variable yaml_dump : json -> cli_result string.

Definition configure_llama_provider (config_file : string) : Cmd unit :=
  (text <- read_file config_file ;
   config <- cli_lift (load_config text) ;
   providers <- configure_api_providers (PackageConfig.providers config) ;
   let config := PackageConfig.mk providers (PackageConfig.other_fields config) in
   open_for_writing config_file ;;
   to_write <- cli_lift (to_json config) ;
   text <- cli_lift (yaml_dump to_write) ;
   file_write config_file text ;;
   py_print (configuration_written config_file))%Cmd.

Definition _run_api_configure_cmd (api build_name : string) : Cmd unit :=
  (let name := build_file_name build_name in
   let config_file := builds_path api name in
   found <- path_exists config_file ;
   if negb found then
     parser_error (could_not_find config_file) ;;
     cli_ret tt
   else
     configure_llama_provider config_file)%Cmd.

End Configure.

(** ** Vocabulary of the properties *)

(** *** Tool calls and events *)

(** The [ToolCall] built from a provider record and its decoded arguments. *)
Definition tool_call_of (call : OpenAIChatCompletionMessageToolCall.t)
  (arguments : json) : ToolCall.t :=
  ToolCall.mk
    (OpenAIChatCompletionMessageToolCall.id call)
    (Function.name (OpenAIChatCompletionMessageToolCall.function call))
    arguments.

(** The arguments string of a provider record. *)
Definition arguments_of (call : OpenAIChatCompletionMessageToolCall.t) : string :=
  Function.arguments (OpenAIChatCompletionMessageToolCall.function call).

(** A progress-phase event as the stream mapper builds it: no stop reason. *)
Definition event (ty : ChatCompletionResponseEventType.t)
  (delta : ChatCompletionResponseEvent.delta_t)
  (logprobs : option (list TokenLogProbs.t)) : ChatCompletionResponseStreamChunk.t :=
  ChatCompletionResponseStreamChunk.mk
    (ChatCompletionResponseEvent.mk ty delta logprobs None).

(** The terminal event. *)
Definition complete_event (stop_reason : option StopReason.t)
  : ChatCompletionResponseStreamChunk.t :=
  ChatCompletionResponseStreamChunk.mk
    (ChatCompletionResponseEvent.mk ChatCompletionResponseEventType.complete
       (ChatCompletionResponseEvent.Str "") None stop_reason).

Definition event_type_of (c : ChatCompletionResponseStreamChunk.t)
  : ChatCompletionResponseEventType.t :=
  ChatCompletionResponseEvent.event_type (ChatCompletionResponseStreamChunk.event c).

(** The event a tool call is wrapped in. *)
Definition tool_call_delta (call : ToolCall.t) : ChatCompletionResponseEvent.delta_t :=
  ChatCompletionResponseEvent.Tool
    (ToolCallDelta.mk (ToolCallDelta.Call call) ToolCallParseStatus.success).

Definition multiple_tool_calls_warning : string :=
  "multiple tool calls found in a single delta, using the first, ignoring the rest".

(** The content event that precedes the tool-call event of a chunk, when
    the chunk carries content. *)
Definition content_events (ty : ChatCompletionResponseEventType.t)
  (content : option string) (lp : option (list TokenLogProbs.t))
  : list ChatCompletionResponseStreamChunk.t :=
  if truthy content
  then [event ty (ChatCompletionResponseEvent.Str (default "" content)) lp]
  else [].

Definition multiple_warnings (calls : list OpenAIChatCompletionMessageToolCall.t)
  : list string :=
  if (1 <? length calls)%nat then [multiple_tool_calls_warning] else [].

(** *** The event lifecycle and the latched stop reason *)

Definition is_progress (ty : ChatCompletionResponseEventType.t) : bool :=
  match ty with
  | ChatCompletionResponseEventType.progress => true
  | _ => false
  end.

(** The event lifecycle of the specification, on the sequence of event
    types: exactly one start event first, progress events in the middle,
    exactly one complete event last. *)
Definition lifecycle (tys : list ChatCompletionResponseEventType.t) : bool :=
  match tys with
  | ChatCompletionResponseEventType.start :: rest =>
      match reverse rest with
      | ChatCompletionResponseEventType.complete :: middle => forallb is_progress middle
      | _ => false
      end
  | _ => false
  end.

(** What has been yielded, given where the event-type generator stands. *)
Definition trace_ok (fr : Frame.t) : Prop :=
  match Frame.event_type fr with
  | NotStarted => Frame.yielded fr = []
  | Emitting =>
      exists middle,
        map event_type_of (Frame.yielded fr)
        = ChatCompletionResponseEventType.start :: middle
        /\ forallb is_progress middle = true
  end.

(** The stop reason carried by the last event of a run. *)
Definition final_stop_reason
  (run : list ChatCompletionResponseStreamChunk.t * option exn)
  : option StopReason.t :=
  last (fst run) ≫= fun c =>
    ChatCompletionResponseEvent.stop_reason (ChatCompletionResponseStreamChunk.event c).

(** The latch as the specification words it: a chunk changes the stop
    reason only when it carries a non-empty finish reason. *)
Definition spec_latch (stop_reason : option StopReason.t)
  (finish_reason : option string) : option StopReason.t :=
  if truthy finish_reason
  then Some (_convert_openai_finish_reason finish_reason)
  else stop_reason.

Definition spec_latched_stop_reason (stream : list OpenAIChatCompletionChunk.t)
  : option StopReason.t :=
  foldl
    (fun stop_reason chunk =>
       match OpenAIChatCompletionChunk.choices chunk with
       | choice :: _ => spec_latch stop_reason (ChunkChoice.finish_reason choice)
       | [] => stop_reason
       end)
    None stream.

(** A chunk with one choice, no tool calls and no log-probabilities. *)
Definition text_chunk (content : option string) (finish_reason : option string)
  : OpenAIChatCompletionChunk.t :=
  OpenAIChatCompletionChunk.mk
    [ChunkChoice.mk (ChoiceDelta.mk content None) finish_reason None].

(** A chunk with one choice that carries content and tool calls. *)
Definition tool_chunk (content : option string)
  (calls : list OpenAIChatCompletionMessageToolCall.t)
  : OpenAIChatCompletionChunk.t :=
  OpenAIChatCompletionChunk.mk
    [ChunkChoice.mk (ChoiceDelta.mk content (Some calls)) None None].

(** *** A functional summary of the request mapper

    The entries of the payload and of [nvext] when the mapper returns, and
    the warnings it issues, as functions of the request. The store-based
    mapper above is proved to compute exactly these. *)

Definition sampling_entries_of (sampling_params : option SamplingParams.t)
  (payload : gmap string pyval) : gmap string pyval :=
  match sampling_params with
  | Some sp =>
      let payload :=
        match SamplingParams.max_tokens sp with
        | Some max_tokens =>
            if (max_tokens =? 0)%Z then payload
            else <["max_tokens" := VInt max_tokens]> payload
        | None => payload
        end in
      if String.eqb (SamplingParams.strategy sp) "top_p"
      then <["top_p" := VFloat (SamplingParams.top_p sp)]> payload
      else if String.eqb (SamplingParams.strategy sp) "top_k" then payload
      else if String.eqb (SamplingParams.strategy sp) "greedy"
      then <["temperature" := VFloat (SamplingParams.temperature sp)]> payload
      else payload
  | None => payload
  end.

Definition tools_entries_of (tools : option (list ToolDefinition.t))
  (tool_choice : option ToolChoice.t) (payload : gmap string pyval)
  : gmap string pyval :=
  match tools with
  | Some (tool :: tools) =>
      let payload := <["tools" := VTools (tool :: tools)]> payload in
      match tool_choice with
      | Some tool_choice =>
          <["tool_choice" := VStr (ToolChoice.value tool_choice)]> payload
      | None => payload
      end
  | _ => payload
  end.

Definition logprobs_entries_of (logprobs : option LogProbConfig.t)
  (payload : gmap string pyval) : gmap string pyval :=
  match logprobs with
  | Some logprobs =>
      <["top_logprobs" := VInt (LogProbConfig.top_k logprobs)]>
        (<["logprobs" := VBool true]> payload)
  | None => payload
  end.

Definition payload_entries (request : ChatCompletionRequest.t) (n : Z)
  (messages : list pyval) (extra_body : loc) : gmap string pyval :=
  sampling_entries_of (ChatCompletionRequest.sampling_params request)
    (logprobs_entries_of (ChatCompletionRequest.logprobs request)
       (tools_entries_of
          (ChatCompletionRequest.tools request)
          (ChatCompletionRequest.tool_choice request)
          {[ "model" := VStr (ChatCompletionRequest.model request);
             "messages" := VList messages;
             "stream" := of_optional_bool (ChatCompletionRequest.stream request);
             "n" := VInt n;
             "extra_body" := VDict extra_body;
             "extra_headers" :=
               VBytesDict [("User-Agent", "llama-stack: nvidia-inference-adapter")] ]})).

Definition nvext_entries (request : ChatCompletionRequest.t) : gmap string pyval :=
  match ChatCompletionRequest.sampling_params request with
  | Some sp =>
      let nvext : gmap string pyval :=
        {[ "repetition_penalty" := VFloat (SamplingParams.repetition_penalty sp) ]} in
      if String.eqb (SamplingParams.strategy sp) "top_p"
      then <["top_k" := VInt (-1)]> nvext
      else if String.eqb (SamplingParams.strategy sp) "top_k"
      then <["top_k" := VInt (SamplingParams.top_k sp)]> nvext
      else if String.eqb (SamplingParams.strategy sp) "greedy"
      then <["top_k" := VInt (-1)]> nvext
      else nvext
  | None => ∅
  end.

Definition request_warnings (request : ChatCompletionRequest.t) : list string :=
  match ChatCompletionRequest.sampling_params request with
  | Some sp =>
      if String.eqb (SamplingParams.strategy sp) "top_p" then []
      else if String.eqb (SamplingParams.strategy sp) "top_k" then
        if negb (SamplingParams.top_k sp =? -1)%Z && (SamplingParams.top_k sp <? 1)%Z
        then ["top_k must be -1 or >= 1"] else []
      else []
  | None => []
  end.

(** [σ'] has every object of [σ] unchanged, and the same warnings. *)
Definition extends (σ σ' : Store.t) : Prop :=
  Store.warned σ' = Store.warned σ /\
  forall l d, Store.objects σ !! l = Some d -> Store.objects σ' !! l = Some d.

(** *** Chunks that the stream mapper converts *)

(** A chunk on which the loop body does not raise: it has a first choice,
    its log-probabilities convert, and the arguments of all its tool calls
    decode. *)
Definition accepted (json_loads : string -> option json)
  (chunk : OpenAIChatCompletionChunk.t) : bool :=
  match OpenAIChatCompletionChunk.choices chunk with
  | [] => false
  | choice :: _ =>
      match _convert_openai_logprobs (ChunkChoice.logprobs choice) with
      | Ok _ => true
      | Raise _ => false
      end
      && forallb
           (fun call =>
              match json_loads (arguments_of call) with
              | Some _ => true
              | None => false
              end)
           (default [] (ChoiceDelta.tool_calls (ChunkChoice.delta choice)))
  end.

(** A chunk as the provider is meant to send it: as above, and the
    arguments of every tool call decode to a mapping, which is what the
    [arguments] field of a [ToolCall] is declared to hold. *)
Definition convertible (json_loads : string -> option json)
  (chunk : OpenAIChatCompletionChunk.t) : bool :=
  match OpenAIChatCompletionChunk.choices chunk with
  | [] => false
  | choice :: _ =>
      match _convert_openai_logprobs (ChunkChoice.logprobs choice) with
      | Ok _ => true
      | Raise _ => false
      end
      && forallb
           (fun call =>
              match json_loads (arguments_of call) with
              | Some (JObj _) => true
              | _ => false
              end)
           (default [] (ChoiceDelta.tool_calls (ChunkChoice.delta choice)))
  end.

(** An event of the start or progress phase: it carries no stop reason and
    is not the complete event. *)
Definition intermediate (c : ChatCompletionResponseStreamChunk.t) : Prop :=
  ChatCompletionResponseEvent.stop_reason (ChatCompletionResponseStreamChunk.event c) = None
  /\ event_type_of c <> ChatCompletionResponseEventType.complete.

Definition event_delta (c : ChatCompletionResponseStreamChunk.t)
  : ChatCompletionResponseEvent.delta_t :=
  ChatCompletionResponseEvent.delta (ChatCompletionResponseStreamChunk.event c).

(** A chunk with a first choice, no tool call, and log-probabilities that
    convert. *)
Definition text_only (chunk : OpenAIChatCompletionChunk.t) : bool :=
  match OpenAIChatCompletionChunk.choices chunk with
  | [] => false
  | choice :: _ =>
      negb (truthy (ChoiceDelta.tool_calls (ChunkChoice.delta choice)))
      && match _convert_openai_logprobs (ChunkChoice.logprobs choice) with
         | Ok _ => true
         | Raise _ => false
         end
  end.

(** The content of the first choice of a chunk, the empty string when the
    chunk has no content. *)
Definition chunk_text (chunk : OpenAIChatCompletionChunk.t) : string :=
  match OpenAIChatCompletionChunk.choices chunk with
  | [] => ""
  | choice :: _ => default "" (ChoiceDelta.content (ChunkChoice.delta choice))
  end.

(** *** The dictionaries of the request mapper *)

(** The entries of the dictionary that [_convert_message] returns. *)
Definition message_entries (message : Message.t) : gmap string pyval :=
  let d : gmap string pyval :=
    {[ "role" := VStr (if String.eqb (Message.role message) "ipython"
                       then "tool" else Message.role message);
       "content" := VStr (Message.content message) ]} in
  match Message.stop_reason message with
  | Some r => <["stop_reason" := VStr (StopReason.value r)]> d
  | None => d
  end.

(** The keys that a payload can hold. *)
Definition payload_keys : list string :=
  ["model"; "messages"; "stream"; "n"; "extra_body"; "extra_headers";
   "tools"; "tool_choice"; "logprobs"; "top_logprobs";
   "max_tokens"; "top_p"; "temperature"].

(** *** Concrete inputs *)

(** The tool call [{id: 1, function: {name: f, arguments: {}}}]. *)
Definition call_1_f : OpenAIChatCompletionMessageToolCall.t :=
  OpenAIChatCompletionMessageToolCall.mk "1" (Function.mk "{}" "f").

(** A tool call whose arguments are the text [{"x":1}]. *)
Definition call_x1 : OpenAIChatCompletionMessageToolCall.t :=
  OpenAIChatCompletionMessageToolCall.mk "1"
    (Function.mk ("{" +:+ Json.quoted "x" +:+ ":1}") "f").

(** A tool call whose arguments are cut short. *)
Definition call_bad : OpenAIChatCompletionMessageToolCall.t :=
  OpenAIChatCompletionMessageToolCall.mk "2" (Function.mk "{" "g").

(** A request with strategy top_k and the out-of-range value 0. *)
Definition request_top_k_0 : ChatCompletionRequest.t :=
  ChatCompletionRequest.mk "meta/llama-3.1-8b-instruct"
    [Message.mk "user" "hi" None]
    (Some (SamplingParams.mk "top_k" 0.5%float 0.5%float 0 None 1%float))
    None None (Some false) None.

(** A request with one tool and tool choice required. *)
Definition request_with_tool : ChatCompletionRequest.t :=
  ChatCompletionRequest.mk "meta/llama-3.1-8b-instruct"
    [Message.mk "ipython" "42" None;
     Message.mk "assistant" "ok" (Some StopReason.end_of_turn)]
    None
    (Some [ToolDefinition.mk "get_weather" None])
    (Some ToolChoice.required) (Some false) None.

(** A chunk whose log-probabilities are present without a content list. *)
Definition chunk_with_empty_logprobs : OpenAIChatCompletionChunk.t :=
  OpenAIChatCompletionChunk.mk
    [ChunkChoice.mk (ChoiceDelta.mk (Some "x") None) None
       (Some (OpenAIChoiceLogprobs.mk None))].

(** Collaborators for a concrete run of the configure subcommand: the
    providers are a text, the loader takes the whole file as the providers,
    [configure_api_providers] appends a setting, and the serialisers write
    the providers back. *)
Definition demo_builds_path (api name : string) : string :=
  "builds/" +:+ api +:+ "/" +:+ name.

Definition demo_load_config (text : string) : cli_result (PackageConfig.t string unit) :=
  Returned (PackageConfig.mk text tt).

Definition demo_configure_api_providers (providers : string) : Cmd string :=
  cli_ret (providers +:+ " port=5000").

Definition demo_to_json (config : PackageConfig.t string unit) : cli_result json :=
  Returned (JStr (PackageConfig.providers config)).

Definition demo_yaml_dump (to_write : json) : cli_result string :=
  match to_write with
  | JStr s => Returned s
  | _ => Raised (CollaboratorError "RepresenterError")
  end.

(** A serialiser that fails on every configuration. *)
Definition failing_to_json (config : PackageConfig.t string unit) : cli_result json :=
  Raised (CollaboratorError "TypeError").

Definition demo_world : World.t :=
  World.mk {[ "builds/inference/local.yaml" := "meta-reference" ]} [].

(** ** Properties *)

(** *** The tool-call mapper on decodable and on malformed arguments *)

Section MapperProperties.

Variable json_loads : string -> option json.

Lemma result_map_tool_calls_ok calls vs :
  Forall2 (fun call v => json_loads (arguments_of call) = Some v) calls vs ->
  result_map
    (fun call =>
       (arguments <- loads json_loads (arguments_of call) ;
        Ok (tool_call_of call arguments))%result) calls
  = Ok (zip_with tool_call_of calls vs).
Proof.
  induction 1 as [|call v calls vs Hv _ IH]; simpl; [reflexivity|].
  unfold loads at 1. rewrite Hv. simpl. rewrite IH. reflexivity.
Qed.

Lemma result_map_tool_calls_raise calls :
  Exists (fun call => json_loads (arguments_of call) = None) calls ->
  result_map
    (fun call =>
       (arguments <- loads json_loads (arguments_of call) ;
        Ok (tool_call_of call arguments))%result) calls
  = Raise JSONDecodeError.
Proof.
  induction 1 as [call calls Hbad|call calls _ IH]; simpl.
  - unfold loads. rewrite Hbad. reflexivity.
  - unfold loads at 1. destruct (json_loads (arguments_of call)); simpl; [|reflexivity].
    rewrite IH. reflexivity.
Qed.

Lemma tool_calls_ok calls vs :
  Forall2 (fun call v => json_loads (arguments_of call) = Some v) calls vs ->
  _convert_openai_tool_calls json_loads (Some calls)
  = Ok (zip_with tool_call_of calls vs).
Proof.
  intros H. unfold _convert_openai_tool_calls.
  destruct H as [|call v calls vs Hv H]; [reflexivity|].
  change (negb (truthy (Some (call :: calls)))) with false. cbv iota.
  apply (result_map_tool_calls_ok (call :: calls) (v :: vs)).
  constructor; assumption.
Qed.

Lemma tool_calls_raise calls :
  Exists (fun call => json_loads (arguments_of call) = None) calls ->
  _convert_openai_tool_calls json_loads (Some calls) = Raise JSONDecodeError.
Proof.
  intros H. unfold _convert_openai_tool_calls.
  destruct calls as [|call calls]; [inversion H|].
  change (negb (truthy (Some (call :: calls)))) with false. cbv iota.
  apply (result_map_tool_calls_raise (call :: calls)). assumption.
Qed.

End MapperProperties.

(** *** One step of the stream mapper *)

Lemma for_each_app {S A} (body : A -> M S unit) (l1 l2 : list A) (s : S) :
  for_each body (l1 ++ l2) s =
  match for_each body l1 s with
  | (Ok _, s') => for_each body l2 s'
  | (Raise e, s') => (Raise e, s')
  end.
Proof.
  revert s. induction l1 as [|x l1 IH]; intros s; simpl; [reflexivity|].
  unfold bind. destruct (body x s) as [[[]|e] s']; [apply IH|reflexivity].
Qed.

Section StreamSteps.

Variable json_loads : string -> option json.

Lemma next_event_type_run fr :
  next_event_type fr =
  (Ok (fst (next (Frame.event_type fr))),
   Frame.mk (Frame.stop_reason fr) Emitting (Frame.yielded fr) (Frame.warned fr)).
Proof. unfold next_event_type. destruct (Frame.event_type fr); reflexivity. Qed.

(** A chunk without tool calls yields one event. *)
Lemma stream_body_text chunk choice rest lp fr :
  OpenAIChatCompletionChunk.choices chunk = choice :: rest ->
  truthy (ChoiceDelta.tool_calls (ChunkChoice.delta choice)) = false ->
  _convert_openai_logprobs (ChunkChoice.logprobs choice) = Ok lp ->
  stream_body json_loads chunk fr =
  (Ok tt,
   Frame.mk
     (Some (_convert_openai_finish_reason (ChunkChoice.finish_reason choice)))
     Emitting
     (Frame.yielded fr ++
      [event (fst (next (Frame.event_type fr)))
         (ChatCompletionResponseEvent.Str
            (or_default (ChoiceDelta.content (ChunkChoice.delta choice)) ""))
         lp])
     (Frame.warned fr)).
Proof.
  intros Hc Ht Hlp. unfold stream_body. rewrite Hc. cbn [index0].
  unfold bind at 1. cbn [lift]. unfold bind at 1. cbn [gets]. unfold bind at 1.
  cbn [set_stop_reason modify]. cbn [Frame.stop_reason Frame.event_type Frame.yielded Frame.warned].
  rewrite Ht. unfold bind at 1. rewrite next_event_type_run.
  cbn [Frame.stop_reason Frame.event_type Frame.yielded Frame.warned fst].
  unfold bind at 1. cbn [lift]. rewrite Hlp. reflexivity.
Qed.

(** The frame in which the tool calls of a chunk are converted. *)
Lemma stream_body_tool_gen chunk choice rest calls lp fr :
  OpenAIChatCompletionChunk.choices chunk = choice :: rest ->
  ChoiceDelta.tool_calls (ChunkChoice.delta choice) = Some calls ->
  calls <> [] ->
  _convert_openai_logprobs (ChunkChoice.logprobs choice) = Ok lp ->
  let content := ChoiceDelta.content (ChunkChoice.delta choice) in
  let ty := fst (next (Frame.event_type fr)) in
  let fr1 :=
    Frame.mk
      (Some (_convert_openai_finish_reason (ChunkChoice.finish_reason choice)))
      Emitting
      (Frame.yielded fr ++ content_events ty content lp)
      (Frame.warned fr ++ multiple_warnings calls) in
  stream_body json_loads chunk fr =
  match _convert_openai_tool_calls json_loads (Some calls) with
  | Ok (tc :: _) =>
      (Ok tt,
       Frame.mk (Frame.stop_reason fr1) Emitting
         (Frame.yielded fr1 ++
          [event (if truthy content then ChatCompletionResponseEventType.progress else ty)
             (tool_call_delta tc) lp])
         (Frame.warned fr1))
  | Ok [] => (Raise IndexError, fr1)
  | Raise e => (Raise e, fr1)
  end.
Proof.
  intros Hc Ht Hne Hlp content ty fr1. unfold stream_body. rewrite Hc. cbn [index0].
  unfold bind at 1. cbn [lift]. unfold bind at 1. cbn [gets]. unfold bind at 1.
  cbn [set_stop_reason modify]. cbn [Frame.stop_reason Frame.event_type Frame.yielded Frame.warned].
  rewrite Ht.
  assert (Htr : truthy (Some calls) = true) by (destruct calls; [congruence|reflexivity]).
  rewrite Htr. change (default [] (Some calls)) with calls.
  subst fr1 ty. unfold content_events, multiple_warnings. fold content.
  destruct (_convert_openai_tool_calls json_loads (Some calls)) as [[|tc tcs]|e] eqn:Hconv;
  destruct (truthy content) eqn:Hcontent;
  destruct (1 <? length calls)%nat eqn:Hlen;
  unfold bind, next_event_type, lift, yield, stream_warn, modify, ret;
  destruct (Frame.event_type fr);
  repeat (progress
    (cbn [next fst index0 Frame.stop_reason Frame.event_type Frame.yielded Frame.warned];
     rewrite ?Hlp, ?Hconv));
  rewrite ?app_nil_r, <- ?app_assoc; reflexivity.
Qed.

(** When the conversion of the tool calls raises, the log-probabilities
    have been converted only for the content event. *)
Lemma stream_body_tool_raise chunk choice rest calls e lp fr :
  OpenAIChatCompletionChunk.choices chunk = choice :: rest ->
  ChoiceDelta.tool_calls (ChunkChoice.delta choice) = Some calls ->
  calls <> [] ->
  _convert_openai_tool_calls json_loads (Some calls) = Raise e ->
  (truthy (ChoiceDelta.content (ChunkChoice.delta choice)) = true ->
   _convert_openai_logprobs (ChunkChoice.logprobs choice) = Ok lp) ->
  stream_body json_loads chunk fr =
  (Raise e,
   Frame.mk
     (Some (_convert_openai_finish_reason (ChunkChoice.finish_reason choice)))
     Emitting
     (Frame.yielded fr ++
      content_events (fst (next (Frame.event_type fr)))
        (ChoiceDelta.content (ChunkChoice.delta choice)) lp)
     (Frame.warned fr ++ multiple_warnings calls)).
Proof.
  intros Hc Ht Hne Hconv Hlp.
  destruct (truthy (ChoiceDelta.content (ChunkChoice.delta choice))) eqn:Hcontent.
  - rewrite (stream_body_tool_gen chunk choice rest calls lp fr Hc Ht Hne (Hlp eq_refl)).
    rewrite Hconv. reflexivity.
  - unfold stream_body. rewrite Hc. cbn [index0].
    unfold bind at 1. cbn [lift]. unfold bind at 1. cbn [gets]. unfold bind at 1.
    cbn [set_stop_reason modify].
    cbn [Frame.stop_reason Frame.event_type Frame.yielded Frame.warned].
    rewrite Ht.
    assert (Htr : truthy (Some calls) = true) by (destruct calls; [congruence|reflexivity]).
    rewrite Htr. change (default [] (Some calls)) with calls. rewrite Hcontent.
    unfold content_events, multiple_warnings. rewrite Hcontent.
    destruct (1 <? length calls)%nat;
    unfold bind, next_event_type, lift, yield, stream_warn, modify, ret;
    destruct (Frame.event_type fr);
    repeat (progress
      (cbn [next fst index0 Frame.stop_reason Frame.event_type Frame.yielded Frame.warned];
       rewrite ?Hconv));
    rewrite ?app_nil_r; reflexivity.
Qed.

End StreamSteps.

(** *** The lifecycle invariant of the stream mapper *)

Section StreamInvariant.

Variable json_loads : string -> option json.

Lemma trace_ok_yield sr g ys w sr' w' ty delta lp :
  trace_ok (Frame.mk sr g ys w) ->
  ty = fst (next g) ->
  trace_ok (Frame.mk sr' Emitting (ys ++ [event ty delta lp]) w').
Proof.
  unfold trace_ok. cbn [Frame.event_type Frame.yielded]. intros Hok ->.
  rewrite map_app. cbn [map]. unfold event_type_of at 2. cbn.
  destruct g.
  - rewrite Hok. exists []. split; reflexivity.
  - destruct Hok as (middle & -> & Hmid).
    exists (app middle [ChatCompletionResponseEventType.progress]). split; [reflexivity|].
    rewrite forallb_app, Hmid. reflexivity.
Qed.

Lemma stream_body_ok chunk fr fr' :
  trace_ok fr ->
  stream_body json_loads chunk fr = (Ok tt, fr') ->
  trace_ok fr' /\ Frame.event_type fr' = Emitting.
Proof.
  intros Hok Hrun.
  destruct (OpenAIChatCompletionChunk.choices chunk) as [|choice rest] eqn:Hc.
  { unfold stream_body in Hrun. rewrite Hc in Hrun. discriminate. }
  destruct (_convert_openai_logprobs (ChunkChoice.logprobs choice)) as [lp|e] eqn:Hlp.
  2:{ exfalso. revert Hrun. unfold stream_body. rewrite Hc.
      unfold bind, next_event_type, lift, yield, stream_warn, set_stop_reason, gets, modify, ret.
      cbn [index0]. rewrite Hlp.
      repeat case_match; simplify_eq; discriminate. }
  destruct fr as [sr g ys w].
  destruct (ChoiceDelta.tool_calls (ChunkChoice.delta choice)) as [[|call others]|] eqn:Ht.
  - rewrite (stream_body_text json_loads chunk choice rest lp _ Hc) in Hrun
      by (rewrite ?Ht; done).
    injection Hrun as <-. split; [|reflexivity].
    eapply trace_ok_yield; [exact Hok|reflexivity].
  - rewrite (stream_body_tool_gen json_loads chunk choice rest _ lp _ Hc Ht) in Hrun by done.
    destruct (_convert_openai_tool_calls json_loads (Some (call :: others)))
      as [[|tc tcs]|e]; try discriminate.
    injection Hrun as <-. split; [|reflexivity].
    cbn [Frame.stop_reason Frame.event_type Frame.yielded Frame.warned].
    unfold content_events.
    destruct (truthy (ChoiceDelta.content (ChunkChoice.delta choice))).
    + eapply (trace_ok_yield None Emitting _ []); [|reflexivity].
      eapply trace_ok_yield; [exact Hok|reflexivity].
    + rewrite app_nil_r.
      eapply trace_ok_yield; [exact Hok|reflexivity].
  - rewrite (stream_body_text json_loads chunk choice rest lp _ Hc) in Hrun
      by (rewrite ?Ht; done).
    injection Hrun as <-. split; [|reflexivity].
    eapply trace_ok_yield; [exact Hok|reflexivity].
Qed.

Lemma for_each_stream_body_ok stream fr fr' :
  trace_ok fr ->
  for_each (stream_body json_loads) stream fr = (Ok tt, fr') ->
  trace_ok fr' /\ (stream <> [] -> Frame.event_type fr' = Emitting).
Proof.
  revert fr. induction stream as [|chunk stream IH]; intros fr Hok Hrun.
  - injection Hrun as <-. split; [exact Hok|congruence].
  - cbn [for_each] in Hrun. unfold bind in Hrun.
    destruct (stream_body json_loads chunk fr) as [[[]|e] fr1] eqn:Hbody; [|discriminate].
    destruct (stream_body_ok _ _ _ Hok Hbody) as [Hok1 Hem].
    destruct (IH fr1 Hok1 Hrun) as [Hok' Hem']. split; [exact Hok'|]. intros _.
    destruct stream as [|c stream]; [|apply Hem'; congruence].
    injection Hrun as <-. exact Hem.
Qed.

End StreamInvariant.

(** *** Whole runs of the stream mapper *)

Section StreamProperties.

Variable json_loads : string -> option json.

Lemma run_stream_unfold stream :
  run_stream json_loads stream =
  match for_each (stream_body json_loads) stream initial_frame with
  | (Ok _, fr) =>
      (Frame.yielded fr ++ [complete_event (Frame.stop_reason fr)], None)
  | (Raise e, fr) => (Frame.yielded fr, Some e)
  end.
Proof.
  unfold run_stream, convert_openai_chat_completion_stream, bind.
  destruct (for_each (stream_body json_loads) stream initial_frame) as [[[]|e] fr];
    reflexivity.
Qed.

Lemma stream_body_stop_reason chunk choice rest fr fr' :
  OpenAIChatCompletionChunk.choices chunk = choice :: rest ->
  stream_body json_loads chunk fr = (Ok tt, fr') ->
  Frame.stop_reason fr' =
  Some (_convert_openai_finish_reason (ChunkChoice.finish_reason choice)).
Proof.
  intros Hc Hrun.
  destruct (_convert_openai_logprobs (ChunkChoice.logprobs choice)) as [lp|e] eqn:Hlp.
  2:{ exfalso. revert Hrun. unfold stream_body. rewrite Hc.
      unfold bind, next_event_type, lift, yield, stream_warn, set_stop_reason, gets, modify, ret.
      cbn [index0]. rewrite Hlp.
      repeat case_match; simplify_eq; discriminate. }
  destruct (ChoiceDelta.tool_calls (ChunkChoice.delta choice)) as [[|call others]|] eqn:Ht.
  - rewrite (stream_body_text json_loads chunk choice rest lp _ Hc) in Hrun
      by (rewrite ?Ht; done).
    injection Hrun as <-. reflexivity.
  - rewrite (stream_body_tool_gen json_loads chunk choice rest _ lp _ Hc Ht) in Hrun by done.
    destruct (_convert_openai_tool_calls json_loads (Some (call :: others)))
      as [[|tc tcs]|e]; try discriminate.
    injection Hrun as <-. reflexivity.
  - rewrite (stream_body_text json_loads chunk choice rest lp _ Hc) in Hrun
      by (rewrite ?Ht; done).
    injection Hrun as <-. reflexivity.
Qed.

(** What the code does with the stop reason: the terminal event carries the
    mapped finish reason of the last chunk, whatever the earlier chunks
    carried and whether or not the last chunk carries one. *)
Lemma final_stop_reason_is_last_chunk stream chunk choice rest evs :
  OpenAIChatCompletionChunk.choices chunk = choice :: rest ->
  run_stream json_loads (stream ++ [chunk]) = (evs, None) ->
  final_stop_reason (evs, None)
  = Some (_convert_openai_finish_reason (ChunkChoice.finish_reason choice)).
Proof.
  intros Hc. rewrite run_stream_unfold, for_each_app.
  destruct (for_each (stream_body json_loads) stream initial_frame) as [[[]|e] fr1];
    [|discriminate].
  cbn [for_each]. unfold bind at 1.
  destruct (stream_body json_loads chunk fr1) as [[[]|e] fr2] eqn:Hbody; [|discriminate].
  cbn [ret]. intros [= <-]. unfold final_stop_reason. cbn [fst].
  rewrite last_snoc. cbn.
  apply (stream_body_stop_reason _ _ _ _ _ Hc Hbody).
Qed.

(** The lifecycle holds for every stream with at least one chunk that is
    converted without an exception. *)
Lemma lifecycle_of_nonempty_stream stream evs :
  stream <> [] ->
  run_stream json_loads stream = (evs, None) ->
  lifecycle (map event_type_of evs) = true.
Proof.
  intros Hne. rewrite run_stream_unfold.
  destruct (for_each (stream_body json_loads) stream initial_frame) as [[[]|e] fr] eqn:Hrun;
    [|discriminate].
  intros [= <-].
  destruct (for_each_stream_body_ok json_loads stream initial_frame fr) as [Hok Hem];
    [reflexivity|exact Hrun|].
  specialize (Hem Hne). unfold trace_ok in Hok. rewrite Hem in Hok.
  destruct Hok as (middle & Htys & Hmid).
  rewrite map_app, Htys. cbn [map app lifecycle].
  change (event_type_of (complete_event (Frame.stop_reason fr)))
    with ChatCompletionResponseEventType.complete.
  rewrite reverse_snoc. rewrite forallb_forall in Hmid |- *.
  intros ty Hty. apply Hmid. apply list_elem_of_In.
  apply elem_of_reverse. apply list_elem_of_In. exact Hty.
Qed.

End StreamProperties.

(** *** The request mapper computes its functional summary *)

Lemma extends_refl σ : extends σ σ.
Proof. split; [reflexivity|auto]. Qed.

Lemma extends_trans σ1 σ2 σ3 : extends σ1 σ2 -> extends σ2 σ3 -> extends σ1 σ3.
Proof. intros [H1 H2] [H3 H4]. split; [congruence|auto]. Qed.

Lemma fresh_loc_not_in (objects : gmap loc (gmap string pyval)) :
  objects !! fresh (dom objects) = None.
Proof. apply not_elem_of_dom. apply is_fresh. Qed.

Lemma new_dict_extends d σ :
  extends σ (snd (new_dict d σ)).
Proof.
  split; [reflexivity|]. intros l d' Hl. cbn.
  rewrite lookup_insert_ne; [exact Hl|].
  intros <-. rewrite fresh_loc_not_in in Hl. discriminate.
Qed.

Lemma dict_getitem_top l k v d objects warned :
  d !! k = Some v ->
  dict_getitem l k (Store.mk (<[l := d]> objects) warned)
  = (Ok v, Store.mk (<[l := d]> objects) warned).
Proof.
  intros Hk. unfold dict_getitem. cbn [Store.objects].
  rewrite lookup_insert_eq. cbn. rewrite Hk. reflexivity.
Qed.

Lemma dict_contains_top l k d objects warned :
  dict_contains l k (Store.mk (<[l := d]> objects) warned)
  = (Ok (bool_decide (is_Some (d !! k))), Store.mk (<[l := d]> objects) warned).
Proof.
  unfold dict_contains, gets. cbn [Store.objects].
  rewrite lookup_insert_eq. reflexivity.
Qed.

Lemma dict_update_top l k v d objects warned :
  dict_update l k v (Store.mk (<[l := d]> objects) warned)
  = (Ok tt, Store.mk (<[l := <[k := v]> d]> objects) warned).
Proof.
  unfold dict_update, modify. cbn [Store.objects Store.warned].
  rewrite alter_insert_eq. reflexivity.
Qed.

Lemma dict_update_below l l' k v d d' objects warned :
  l <> l' ->
  dict_update l k v (Store.mk (<[l' := d']> (<[l := d]> objects)) warned)
  = (Ok tt, Store.mk (<[l' := d']> (<[l := <[k := v]> d]> objects)) warned).
Proof.
  intros Hne. unfold dict_update, modify. cbn [Store.objects Store.warned].
  rewrite alter_insert_ne by done. rewrite alter_insert_eq. reflexivity.
Qed.

Lemma warn_run msg objects warned :
  warn msg (Store.mk objects warned) = (Ok tt, Store.mk objects (warned ++ [msg])).
Proof. reflexivity. Qed.

Lemma extends_insert_fresh d objects warned :
  extends (Store.mk objects warned)
    (Store.mk (<[fresh (dom objects) := d]> objects) warned).
Proof.
  split; [reflexivity|]. cbn [Store.objects]. intros l d' Hl.
  rewrite lookup_insert_ne; [exact Hl|].
  intros <-. rewrite fresh_loc_not_in in Hl. discriminate.
Qed.

Lemma convert_message_run message σ :
  exists l σ', _convert_message message σ = (Ok (VDict l), σ') /\ extends σ σ'.
Proof.
  destruct σ as [objects warned].
  exists (fresh (dom objects)).
  unfold _convert_message, Message_dict.
  unfold bind at 1. cbn [new_dict Store.objects Store.warned].
  set (l := fresh (dom objects)).
  set (d := match Message.stop_reason message with
            | Some r => _ | None => _ end).
  assert (Hrole : d !! "role" = Some (VStr (Message.role message))).
  { subst d. destruct (Message.stop_reason message); simplify_map_eq; reflexivity. }
  unfold bind at 1. rewrite (dict_getitem_top _ _ _ _ _ _ Hrole).
  unfold bind at 1.
  assert (Hstep1 : exists d1,
    (if eq_str (VStr (Message.role message)) "ipython"
     then dict_update l "role" (VStr "tool") else ret tt)
      (Store.mk (<[l := d]> objects) warned)
    = (Ok tt, Store.mk (<[l := d1]> objects) warned)
    /\ d1 !! "stop_reason" = d !! "stop_reason").
  { destruct (eq_str _ _).
    - rewrite dict_update_top. eexists; split; [reflexivity|].
      rewrite lookup_insert_ne by done. reflexivity.
    - eexists; split; reflexivity. }
  destruct Hstep1 as (d1 & -> & Hd1).
  unfold bind at 1. rewrite dict_contains_top.
  unfold bind at 1. rewrite Hd1.
  assert (Hstop : d !! "stop_reason" = VStopReason <$> Message.stop_reason message).
  { subst d. destruct (Message.stop_reason message); simplify_map_eq; reflexivity. }
  rewrite Hstop.
  destruct (Message.stop_reason message) as [r|]; cbn [fmap option_fmap option_map].
  - rewrite bool_decide_eq_true_2 by eauto.
    unfold bind at 1. rewrite (dict_getitem_top _ _ (VStopReason r)) by (rewrite Hd1, Hstop; reflexivity).
    unfold bind at 1. cbn [lift enum_value]. rewrite dict_update_top.
    eexists; split; [reflexivity|]. apply extends_insert_fresh.
  - rewrite bool_decide_eq_false_2 by (intros [? ?]; discriminate).
    eexists; split; [reflexivity|]. apply extends_insert_fresh.
Qed.

Lemma map_convert_message_run messages σ :
  exists vs σ', map_M _convert_message messages σ = (Ok vs, σ') /\ extends σ σ'.
Proof.
  revert σ. induction messages as [|message messages IH]; intros σ.
  - exists [], σ. split; [reflexivity|apply extends_refl].
  - destruct (convert_message_run message σ) as (l & σ1 & Hrun1 & Hext1).
    destruct (IH σ1) as (vs & σ2 & Hrun2 & Hext2).
    exists (VDict l :: vs), σ2. split; [|eapply extends_trans; eassumption].
    cbn [map_M]. unfold bind. rewrite Hrun1, Hrun2. reflexivity.
Qed.

Lemma bind_run {S A B} (c : M S A) (k : A -> M S B) s a s' :
  c s = (Ok a, s') -> bind c k s = k a s'.
Proof. intros H. unfold bind. rewrite H. reflexivity. Qed.

(** The mapper after its messages have been converted: the rest of the run
    in a store in which the conversion has left the earlier objects
    unchanged. *)
Lemma request_mapper_run_after_messages request n objects0 warned messages objects :
  let nvext := fresh (dom objects0) in
  let extra_body := fresh (dom objects) in
  let payload := fresh (dom (<[extra_body := {[ "nvext" := VDict nvext ]}]> objects)) in
  map_M _convert_message (ChatCompletionRequest.messages request)
    (Store.mk (<[nvext := ∅]> objects0) warned)
  = (Ok messages, Store.mk objects warned) ->
  (forall l d, <[nvext := ∅]> objects0 !! l = Some d -> objects !! l = Some d) ->
  convert_chat_completion_request request n (Store.mk objects0 warned) =
  (Ok payload,
   Store.mk
     (<[nvext := nvext_entries request]>
        (<[payload := payload_entries request n messages extra_body]>
           (<[extra_body := {[ "nvext" := VDict nvext ]}]> objects)))
     (warned ++ request_warnings request))
  /\ nvext <> payload /\ nvext <> extra_body /\ payload <> extra_body
  /\ (forall l d, objects0 !! l = Some d -> objects !! l = Some d /\ l <> nvext /\ l <> payload /\ l <> extra_body).
Proof.
  intros nvext extra_body payload Hmsgs Hobjects.
  unfold convert_chat_completion_request.
  unfold bind at 1. cbn [new_dict Store.objects Store.warned].
  change (fresh (dom objects0)) with nvext.
  rewrite (bind_run _ _ _ _ _ Hmsgs).
  unfold bind at 1. cbn [new_dict Store.objects Store.warned].
  change (fresh (dom objects)) with extra_body.
  unfold bind at 1. cbn [new_dict Store.objects Store.warned].
  change (fresh (dom (<[extra_body := {[ "nvext" := VDict nvext ]}]> objects))) with payload.
  assert (Hnv : objects !! nvext = Some ∅) by (apply Hobjects, lookup_insert_eq).
  assert (Hne1 : nvext <> extra_body).
  { intros Heq. pose proof (fresh_loc_not_in objects) as Hf. fold extra_body in Hf.
    rewrite <- Heq, Hnv in Hf. discriminate. }
  assert (Hne2 : payload <> extra_body).
  { intros Heq.
    pose proof (fresh_loc_not_in (<[extra_body := {[ "nvext" := VDict nvext ]}]> objects)) as Hf.
    fold payload in Hf. rewrite Heq, lookup_insert_eq in Hf. discriminate. }
  assert (Hne3 : nvext <> payload).
  { intros Heq.
    pose proof (fresh_loc_not_in (<[extra_body := {[ "nvext" := VDict nvext ]}]> objects)) as Hf.
    fold payload in Hf. rewrite <- Heq, lookup_insert_ne, Hnv in Hf by done. discriminate. }
  split; [|repeat split; try assumption].
  2:{ apply Hobjects. rewrite lookup_insert_ne; [assumption|].
      intros <-. subst nvext. rewrite fresh_loc_not_in in H. discriminate. }
  2:{ intros ->. subst nvext. rewrite fresh_loc_not_in in H. discriminate. }
  2:{ intros ->.
      assert (Hl : objects !! payload = Some d).
      { apply Hobjects. rewrite lookup_insert_ne; [assumption|].
        intros <-. subst nvext. rewrite fresh_loc_not_in in H. discriminate. }
      pose proof (fresh_loc_not_in (<[extra_body := {[ "nvext" := VDict nvext ]}]> objects)) as Hf.
      fold payload in Hf. rewrite lookup_insert_ne, Hl in Hf by done. discriminate. }
  2:{ intros ->.
      assert (Hl : objects !! extra_body = Some d).
      { apply Hobjects. rewrite lookup_insert_ne; [assumption|].
        intros <-. subst nvext. rewrite fresh_loc_not_in in H. discriminate. }
      pose proof (fresh_loc_not_in objects) as Hf.
      fold extra_body in Hf. rewrite Hl in Hf. discriminate. }
  (* the store in the form the update lemmas expect *)
  rewrite <- (insert_id (<[payload := _]> (<[extra_body := _]> objects)) nvext ∅)
    by (rewrite !lookup_insert_ne by done; exact Hnv).
  unfold payload_entries.
  set (payload0 := <["model" := _]> _).
  set (rest := <[extra_body := _]> objects).
  (* tools and tool_choice *)
  erewrite (bind_run _ _ _ tt
        (Store.mk (<[nvext := ∅]> (<[payload :=
        tools_entries_of (ChatCompletionRequest.tools request)
          (ChatCompletionRequest.tool_choice request) payload0]> rest)) warned)).
  2:{ 
      destruct (ChatCompletionRequest.tools request) as [[|tool tools]|];
        try reflexivity.
      change (truthy (Some (tool :: tools))) with true. cbv iota.
      erewrite bind_run by (apply dict_update_below; congruence).
      destruct (ChatCompletionRequest.tool_choice request) as [tool_choice|];
        [|reflexivity].
      change (truthy tool_choice) with true. cbv iota.
      apply dict_update_below; congruence. }
  set (payload1 := tools_entries_of _ _ _).
  (* logprobs *)
  erewrite (bind_run _ _ _ tt
        (Store.mk (<[nvext := ∅]> (<[payload :=
        logprobs_entries_of (ChatCompletionRequest.logprobs request) payload1]> rest)) warned)).
  2:{ 
      destruct (ChatCompletionRequest.logprobs request) as [logprobs|]; [|reflexivity].
      change (truthy logprobs) with true. cbv iota.
      erewrite bind_run by (apply dict_update_below; congruence).
      apply dict_update_below; congruence. }
  set (payload2 := logprobs_entries_of _ _).
  (* sampling parameters *)
  erewrite (bind_run _ _ _ tt
        (Store.mk (<[nvext := nvext_entries request]> (<[payload :=
        sampling_entries_of (ChatCompletionRequest.sampling_params request) payload2]> rest))
        (warned ++ request_warnings request))).
  2:{ 
      unfold nvext_entries, request_warnings, sampling_entries_of.
      destruct (ChatCompletionRequest.sampling_params request) as [sp|].
      2:{ rewrite app_nil_r. reflexivity. }
      change (truthy sp) with true. cbv iota.
      erewrite bind_run by apply dict_update_top.
      erewrite (bind_run _ _ _ tt
            (Store.mk (<[nvext := <["repetition_penalty" := VFloat (SamplingParams.repetition_penalty sp)]> ∅]> (<[payload :=
            match SamplingParams.max_tokens sp with
            | Some max_tokens =>
                if (max_tokens =? 0)%Z then payload2
                else <["max_tokens" := VInt max_tokens]> payload2
            | None => payload2
            end]> rest)) warned)).
      2:{ 
          destruct (SamplingParams.max_tokens sp) as [max_tokens|]; [|reflexivity].
          unfold truthy, Z_truthy. destruct (max_tokens =? 0)%Z; cbn [negb]; [reflexivity|].
          apply dict_update_below; congruence. }
      destruct (String.eqb (SamplingParams.strategy sp) "top_p").
      { erewrite bind_run by apply dict_update_top.
        rewrite dict_update_below by congruence. rewrite app_nil_r. reflexivity. }
      destruct (String.eqb (SamplingParams.strategy sp) "top_k").
      { destruct (negb (SamplingParams.top_k sp =? -1)%Z && (SamplingParams.top_k sp <? 1)%Z).
        - erewrite bind_run by apply warn_run. rewrite dict_update_top. reflexivity.
        - erewrite bind_run by reflexivity. rewrite dict_update_top, app_nil_r. reflexivity. }
      destruct (String.eqb (SamplingParams.strategy sp) "greedy").
      { erewrite bind_run by apply dict_update_top.
        rewrite dict_update_below by congruence. rewrite app_nil_r. reflexivity. }
      rewrite app_nil_r. reflexivity. }
  reflexivity.
Qed.


(** The store-based mapper computes the functional summary: it returns the
    location of a new payload whose entries are [payload_entries], whose
    [extra_body] refers to a dictionary whose [nvext] entry refers to a
    dictionary with the entries [nvext_entries]; the objects that existed
    before the call are unchanged. *)
Lemma request_mapper_run request n σ :
  exists nvext extra_body payload messages objects,
    convert_chat_completion_request request n σ =
    (Ok payload,
     Store.mk
       (<[nvext := nvext_entries request]>
          (<[payload := payload_entries request n messages extra_body]>
             (<[extra_body := {[ "nvext" := VDict nvext ]}]> objects)))
       (Store.warned σ ++ request_warnings request))
    /\ nvext <> payload /\ nvext <> extra_body /\ payload <> extra_body
    /\ (forall l d, Store.objects σ !! l = Some d -> objects !! l = Some d /\ l <> nvext /\ l <> payload /\ l <> extra_body).
Proof.
  destruct σ as [objects0 warned].
  destruct (map_convert_message_run (ChatCompletionRequest.messages request)
              (Store.mk (<[fresh (dom objects0) := ∅]> objects0) warned))
    as (messages & [objects warned'] & Hmsgs & Hwarned & Hobjects).
  cbn [Store.objects Store.warned] in Hwarned, Hobjects. subst warned'.
  eexists _, _, _, messages, objects.
  exact (request_mapper_run_after_messages request n objects0 warned messages objects
           Hmsgs Hobjects).
Qed.

Lemma lookup_tools_entries tools tool_choice payload k :
  k <> "tools" -> k <> "tool_choice" ->
  tools_entries_of tools tool_choice payload !! k = payload !! k.
Proof.
  intros H1 H2. unfold tools_entries_of.
  destruct tools as [[|tool tools]|]; try reflexivity.
  destruct tool_choice; rewrite !lookup_insert_ne by congruence; reflexivity.
Qed.

Lemma lookup_logprobs_entries logprobs payload k :
  k <> "logprobs" -> k <> "top_logprobs" ->
  logprobs_entries_of logprobs payload !! k = payload !! k.
Proof.
  intros H1 H2. unfold logprobs_entries_of.
  destruct logprobs; [|reflexivity].
  rewrite !lookup_insert_ne by congruence. reflexivity.
Qed.

Lemma lookup_max_tokens_entries (max_tokens : option Z) (payload : gmap string pyval) k :
  k <> "max_tokens" ->
  match max_tokens with
  | Some max_tokens =>
      if (max_tokens =? 0)%Z then payload
      else <["max_tokens" := VInt max_tokens]> payload
  | None => payload
  end !! k = payload !! k.
Proof.
  intros H. destruct max_tokens as [z|]; [|reflexivity].
  destruct (z =? 0)%Z; [reflexivity|]. rewrite lookup_insert_ne by congruence.
  reflexivity.
Qed.

Lemma lookup_sampling_entries sampling_params payload k :
  k <> "max_tokens" -> k <> "top_p" -> k <> "temperature" ->
  sampling_entries_of sampling_params payload !! k = payload !! k.
Proof.
  intros H1 H2 H3. unfold sampling_entries_of.
  destruct sampling_params as [sp|]; [|reflexivity].
  destruct (String.eqb (SamplingParams.strategy sp) "top_p");
    [|destruct (String.eqb (SamplingParams.strategy sp) "top_k");
      [|destruct (String.eqb (SamplingParams.strategy sp) "greedy")]];
    rewrite ?lookup_insert_ne by congruence;
    apply lookup_max_tokens_entries; exact H1.
Qed.

(** Reading the canonical store. *)
Lemma payload_get_canonical nvext payload N P rest warned k :
  nvext <> payload ->
  payload_get (Store.mk (<[nvext := N]> (<[payload := P]> rest)) warned) payload k
  = P !! k.
Proof.
  intros Hne. unfold payload_get. cbn [Store.objects].
  rewrite lookup_insert_ne by done. rewrite lookup_insert_eq. reflexivity.
Qed.

Lemma nvext_get_canonical nvext extra_body payload N P objects warned k :
  nvext <> payload -> nvext <> extra_body -> payload <> extra_body ->
  P !! "extra_body" = Some (VDict extra_body) ->
  nvext_get
    (Store.mk
       (<[nvext := N]>
          (<[payload := P]> (<[extra_body := {[ "nvext" := VDict nvext ]}]> objects)))
       warned) payload k
  = N !! k.
Proof.
  intros H1 H2 H3 HP. unfold nvext_get. rewrite payload_get_canonical by done.
  rewrite HP. unfold payload_get. cbn [Store.objects].
  rewrite !lookup_insert_ne by done. rewrite lookup_insert_eq. cbn.
  rewrite lookup_singleton_eq. rewrite lookup_insert_eq. reflexivity.
Qed.

Lemma payload_entries_extra_body request n messages extra_body :
  payload_entries request n messages extra_body !! "extra_body"
  = Some (VDict extra_body).
Proof.
  unfold payload_entries.
  rewrite lookup_sampling_entries, lookup_logprobs_entries, lookup_tools_entries by done.
  reflexivity.
Qed.

(** C3. With sampling parameters present, the mapper branches on the
    strategy: top_p sets nvext.top_k to -1 and forwards top_p; top_k
    forwards the given top_k into nvext.top_k unchanged, and warns, without
    failing, exactly when top_k is neither -1 nor at least 1; greedy sets
    nvext.top_k to -1 and forwards temperature; any other strategy sets none
    of temperature, top_p and nvext.top_k. *)
Theorem sampling_strategy_branches request n σ sp :
  ChatCompletionRequest.sampling_params request = Some sp ->
  exists payload σ',
    convert_chat_completion_request request n σ = (Ok payload, σ') /\
    (SamplingParams.strategy sp = "top_p" ->
       nvext_get σ' payload "top_k" = Some (VInt (-1)) /\
       payload_get σ' payload "top_p" = Some (VFloat (SamplingParams.top_p sp)) /\
       Store.warned σ' = Store.warned σ) /\
    (SamplingParams.strategy sp = "top_k" ->
       nvext_get σ' payload "top_k" = Some (VInt (SamplingParams.top_k sp)) /\
       ((SamplingParams.top_k sp <> -1 /\ SamplingParams.top_k sp < 1)%Z ->
          Store.warned σ' = Store.warned σ ++ ["top_k must be -1 or >= 1"]) /\
       ((SamplingParams.top_k sp = -1 \/ 1 <= SamplingParams.top_k sp)%Z ->
          Store.warned σ' = Store.warned σ)) /\
    (SamplingParams.strategy sp = "greedy" ->
       nvext_get σ' payload "top_k" = Some (VInt (-1)) /\
       payload_get σ' payload "temperature"
       = Some (VFloat (SamplingParams.temperature sp)) /\
       Store.warned σ' = Store.warned σ) /\
    (SamplingParams.strategy sp <> "top_p" ->
     SamplingParams.strategy sp <> "top_k" ->
     SamplingParams.strategy sp <> "greedy" ->
       nvext_get σ' payload "top_k" = None /\
       payload_get σ' payload "top_p" = None /\
       payload_get σ' payload "temperature" = None /\
       Store.warned σ' = Store.warned σ).
Proof.
  intros Hsp.
  destruct (request_mapper_run request n σ)
    as (nvext & extra_body & payload & messages & objects & Hrun & Hne1 & Hne2 & Hne3 & _).
  eexists _, _. split; [exact Hrun|].
  rewrite !nvext_get_canonical by (done || apply payload_entries_extra_body).
  rewrite !payload_get_canonical by done. cbn [Store.warned].
  unfold nvext_entries, request_warnings, payload_entries. rewrite Hsp.
  unfold sampling_entries_of.
  set (base := logprobs_entries_of _ _).
  assert (Htp : base !! "top_p" = None).
  { subst base. rewrite lookup_logprobs_entries, lookup_tools_entries by done.
    reflexivity. }
  assert (Htemp : base !! "temperature" = None).
  { subst base. rewrite lookup_logprobs_entries, lookup_tools_entries by done.
    reflexivity. }
  set (with_max := match SamplingParams.max_tokens sp with Some _ => _ | None => _ end).
  assert (Hmax : forall k, k <> "max_tokens" -> with_max !! k = base !! k)
    by (intros k Hk; apply lookup_max_tokens_entries; exact Hk).
  split; [|split; [|split]].
  - intros Hs. rewrite Hs. cbn [String.eqb Ascii.eqb Bool.eqb].
    rewrite !lookup_insert_eq, app_nil_r. done.
  - intros Hs. rewrite Hs. cbn [String.eqb Ascii.eqb Bool.eqb].
    rewrite lookup_insert_eq. split; [reflexivity|]. split.
    + intros [H1 H2].
      rewrite (proj2 (Z.eqb_neq _ _) H1), (proj2 (Z.ltb_lt _ _) H2). reflexivity.
    + intros [H | H].
      * rewrite H. apply app_nil_r.
      * rewrite (proj2 (Z.ltb_ge _ _) H), andb_false_r. apply app_nil_r.
  - intros Hs. rewrite Hs. cbn [String.eqb Ascii.eqb Bool.eqb].
    rewrite !lookup_insert_eq, app_nil_r. done.
  - intros H1 H2 H3.
    rewrite !(proj2 (String.eqb_neq _ _)) by assumption.
    rewrite !Hmax by done. rewrite app_nil_r. done.
Qed.

(** C4. The payload has a tool_choice entry only when the request's tools
    are present (a non-empty list): with tools and no tool_choice there is
    no entry, with a tool_choice and no tools there is none either, and
    with both the entry is the string value of the tool_choice. *)
Theorem tool_choice_only_with_tools request n σ :
  exists payload σ',
    convert_chat_completion_request request n σ = (Ok payload, σ') /\
    (is_Some (payload_get σ' payload "tool_choice") ->
       truthy (ChatCompletionRequest.tools request) = true) /\
    (truthy (ChatCompletionRequest.tools request) = true ->
     ChatCompletionRequest.tool_choice request = None ->
       payload_get σ' payload "tool_choice" = None) /\
    (truthy (ChatCompletionRequest.tools request) = false ->
       payload_get σ' payload "tool_choice" = None) /\
    (forall tool_choice,
       truthy (ChatCompletionRequest.tools request) = true ->
       ChatCompletionRequest.tool_choice request = Some tool_choice ->
       payload_get σ' payload "tool_choice"
       = Some (VStr (ToolChoice.value tool_choice))).
Proof.
  destruct (request_mapper_run request n σ)
    as (nvext & extra_body & payload & messages & objects & Hrun & Hne1 & Hne2 & Hne3 & _).
  eexists _, _. split; [exact Hrun|].
  rewrite !payload_get_canonical by done.
  unfold payload_entries.
  rewrite lookup_sampling_entries, lookup_logprobs_entries by done.
  unfold tools_entries_of.
  destruct (ChatCompletionRequest.tools request) as [[|tool tools]|];
    destruct (ChatCompletionRequest.tool_choice request) as [tool_choice|];
    cbn [truthy option_truthy list_truthy];
    rewrite ?lookup_insert_eq, ?lookup_insert_ne by done;
    rewrite ?lookup_singleton_ne by done;
    repeat split; try congruence; try (intros [? ?]; congruence).
Qed.

(** *** The finish-reason mapper *)

(** C5. The finish-reason mapper is a total function that follows the
    fixed table: "stop" gives end_of_turn, "length" gives out_of_tokens,
    "tool_calls" gives end_of_message, and every other argument, the absent
    and the empty one included, gives end_of_turn. *)
Theorem finish_reason_mapper_table :
  _convert_openai_finish_reason (Some "stop") = StopReason.end_of_turn /\
  _convert_openai_finish_reason (Some "length") = StopReason.out_of_tokens /\
  _convert_openai_finish_reason (Some "tool_calls") = StopReason.end_of_message /\
  _convert_openai_finish_reason None = StopReason.end_of_turn /\
  _convert_openai_finish_reason (Some "") = StopReason.end_of_turn /\
  forall s : string,
    s <> "stop" -> s <> "length" -> s <> "tool_calls" ->
    _convert_openai_finish_reason (Some s) = StopReason.end_of_turn.
Proof.
  repeat split; try reflexivity.
  intros s H1 H2 H3. unfold _convert_openai_finish_reason, finish_reason_table.
  simpl. rewrite !lookup_insert_ne by congruence.
  rewrite lookup_singleton_ne by congruence. reflexivity.
Qed.

Lemma finish_reason_mapper_table_witness :
  _convert_openai_finish_reason (Some "content_filter") = StopReason.end_of_turn.
Proof.
  apply finish_reason_mapper_table; discriminate.
Defined.

Section Claims.

Variable json_loads : string -> option json.

(** *** The tool-call mapper *)

(** C6. When the arguments string of every record decodes to a mapping,
    the mapper returns one ToolCall per record, in order, with the id as
    call_id, the function name as tool_name and that mapping as arguments;
    an absent and an empty input list give the empty list. *)
Theorem tool_call_mapping_roundtrip
  (calls : list OpenAIChatCompletionMessageToolCall.t)
  (ms : list (gmap string json)) :
  Forall2 (fun call m => json_loads (arguments_of call) = Some (JObj m)) calls ms ->
  _convert_openai_tool_calls json_loads (Some calls)
  = Ok (zip_with
          (fun call m =>
             ToolCall.mk
               (OpenAIChatCompletionMessageToolCall.id call)
               (Function.name (OpenAIChatCompletionMessageToolCall.function call))
               (JObj m))
          calls ms)
  /\ _convert_openai_tool_calls json_loads None = Ok []
  /\ _convert_openai_tool_calls json_loads (Some []) = Ok [].
Proof.
  intros Hdec. split; [|split; reflexivity].
  rewrite (tool_calls_ok json_loads calls (JObj <$> ms)).
  - f_equal. clear Hdec. revert ms.
    induction calls as [|call calls IH]; intros [|m ms]; cbn; try reflexivity.
    f_equal. apply IH.
  - apply Forall2_fmap_r. exact Hdec.
Qed.

(** C7. A record whose arguments string is not valid JSON makes the
    tool-call mapper raise the decoder's parse error. The non-stream
    mapper raises it in turn. In a stream, the consumer has received the
    events of the earlier chunks and the content event of the offending
    chunk, if it has one, when the error reaches it; nothing is yielded
    after it, and the rest of the stream is not converted. *)
Theorem malformed_arguments_propagate :
  (forall calls,
     Exists (fun call => json_loads (arguments_of call) = None) calls ->
     _convert_openai_tool_calls json_loads (Some calls) = Raise JSONDecodeError)
  /\
  (forall choice message finish_reason calls,
     OpenAIChoice.message choice = Val message ->
     OpenAIChoice.finish_reason choice = Val finish_reason ->
     finish_reason <> "" ->
     ChatCompletionMessage.tool_calls message = Some calls ->
     Exists (fun call => json_loads (arguments_of call) = None) calls ->
     convert_openai_chat_completion_choice json_loads choice = Raise JSONDecodeError)
  /\
  (forall pre chunk post choice rest calls lp fr,
     for_each (stream_body json_loads) pre initial_frame = (Ok tt, fr) ->
     OpenAIChatCompletionChunk.choices chunk = choice :: rest ->
     ChoiceDelta.tool_calls (ChunkChoice.delta choice) = Some calls ->
     Exists (fun call => json_loads (arguments_of call) = None) calls ->
     (truthy (ChoiceDelta.content (ChunkChoice.delta choice)) = true ->
      _convert_openai_logprobs (ChunkChoice.logprobs choice) = Ok lp) ->
     run_stream json_loads (pre ++ chunk :: post)
     = (Frame.yielded fr ++
        content_events (fst (next (Frame.event_type fr)))
          (ChoiceDelta.content (ChunkChoice.delta choice)) lp,
        Some JSONDecodeError)).
Proof.
  split; [exact (tool_calls_raise json_loads)|]. split.
  - intros choice message finish_reason calls Hm Hf Hne Ht Hbad.
    unfold convert_openai_chat_completion_choice. rewrite Hm, Hf.
    destruct finish_reason as [|a s]; [congruence|]. cbn.
    rewrite Ht, (tool_calls_raise json_loads calls Hbad). reflexivity.
  - intros pre chunk post choice rest calls lp fr Hpre Hc Ht Hbad Hlp.
    rewrite run_stream_unfold, for_each_app, Hpre. cbn [for_each].
    unfold bind at 1.
    rewrite (stream_body_tool_raise json_loads chunk choice rest calls
               JSONDecodeError lp fr Hc Ht).
    + reflexivity.
    + intros ->. inversion Hbad.
    + exact (tool_calls_raise json_loads calls Hbad).
    + exact Hlp.
Qed.

(** *** The non-stream response mapper *)

(** C9. The choice mapper raises an assertion error when the message is
    missing or [None], or when the finish reason is missing, [None] or
    empty. Otherwise the tool-call mapper and then the log-probability
    mapper run: an exception of either propagates, and when both return,
    the response carries the provider's content (the empty string when
    there is none), the mapped finish reason, and the results of the two
    mappers. *)
Theorem choice_mapper_contract :
  (forall choice,
     OpenAIChoice.message choice = Missing \/ OpenAIChoice.message choice = PyNone ->
     convert_openai_chat_completion_choice json_loads choice
     = Raise (AssertionError "error in server response: message not found"))
  /\
  (forall choice message,
     OpenAIChoice.message choice = Val message ->
     OpenAIChoice.finish_reason choice = Missing \/
     OpenAIChoice.finish_reason choice = PyNone \/
     OpenAIChoice.finish_reason choice = Val "" ->
     convert_openai_chat_completion_choice json_loads choice
     = Raise (AssertionError "error in server response: finish_reason not found"))
  /\
  (forall choice message finish_reason,
     OpenAIChoice.message choice = Val message ->
     OpenAIChoice.finish_reason choice = Val finish_reason ->
     finish_reason <> "" ->
     convert_openai_chat_completion_choice json_loads choice
     = match _convert_openai_tool_calls json_loads
               (ChatCompletionMessage.tool_calls message),
             _convert_openai_logprobs (OpenAIChoice.logprobs choice) with
       | Ok tool_calls, Ok logprobs =>
           Ok (ChatCompletionResponse.mk
                 (CompletionMessage.mk
                    (default "" (ChatCompletionMessage.content message))
                    (_convert_openai_finish_reason (Some finish_reason))
                    tool_calls)
                 logprobs)
       | Ok _, Raise e => Raise e
       | Raise e, _ => Raise e
       end).
Proof.
  split; [|split].
  - intros choice [H | H]; unfold convert_openai_chat_completion_choice;
      rewrite H; reflexivity.
  - intros choice message Hm Hf. unfold convert_openai_chat_completion_choice.
    rewrite Hm. destruct Hf as [H | [H | H]]; rewrite H; reflexivity.
  - intros choice message finish_reason Hm Hf Hne.
    unfold convert_openai_chat_completion_choice. rewrite Hm, Hf.
    destruct finish_reason as [|a s]; [congruence|]. cbn.
    destruct (_convert_openai_tool_calls json_loads _) as [tool_calls|e];
      [|reflexivity]. cbn.
    destruct (_convert_openai_logprobs _) as [logprobs|e]; [|reflexivity]. cbn.
    do 3 f_equal.
    destruct (ChatCompletionMessage.content message) as [[|c s']|]; reflexivity.
Qed.

(** *** The stream mapper *)

(** C10. On the empty stream the mapper yields exactly one event, the
    complete event with the empty string as delta and no stop reason, and
    returns; there is no start and no progress event. *)
Theorem empty_stream_only_complete :
  run_stream json_loads []
  = ([ChatCompletionResponseStreamChunk.mk
        (ChatCompletionResponseEvent.mk
           ChatCompletionResponseEventType.complete
           (ChatCompletionResponseEvent.Str "") None None)],
     None).
Proof.
  rewrite run_stream_unfold. cbn [for_each ret initial_frame].
  cbn [Frame.yielded Frame.stop_reason app]. reflexivity.
Qed.

(** C2, at the empty stream: the events do not follow the lifecycle, since
    no start event precedes the complete event. *)
Theorem empty_stream_breaks_lifecycle :
  lifecycle (map event_type_of (fst (run_stream json_loads []))) = false.
Proof.
  rewrite run_stream_unfold. cbn [for_each ret initial_frame fst].
  cbn [Frame.yielded Frame.stop_reason app map]. reflexivity.
Qed.

(** C1, at two streams. A chunk without a finish reason after a chunk with
    finish reason "length" replaces the stop reason by end_of_turn, where
    the latch of the specification keeps out_of_tokens; and a stream in
    which no chunk carries a finish reason ends with stop reason
    end_of_turn, where the latch of the specification is absent. *)
Theorem stop_reason_overwritten_by_every_chunk :
  let stream1 := [text_chunk (Some "a") (Some "length"); text_chunk (Some "b") None] in
  let stream2 := [text_chunk (Some "Hel") None] in
  final_stop_reason (run_stream json_loads stream1) = Some StopReason.end_of_turn /\
  spec_latched_stop_reason stream1 = Some StopReason.out_of_tokens /\
  final_stop_reason (run_stream json_loads stream2) = Some StopReason.end_of_turn /\
  spec_latched_stop_reason stream2 = None.
Proof.
  cbv zeta. split; [|split; [|split]].
  - apply (final_stop_reason_is_last_chunk json_loads
             [text_chunk (Some "a") (Some "length")] (text_chunk (Some "b") None)
             _ [] _ eq_refl).
    reflexivity.
  - reflexivity.
  - apply (final_stop_reason_is_last_chunk json_loads
             [] (text_chunk (Some "Hel") None) _ [] _ eq_refl).
    reflexivity.
  - reflexivity.
Qed.

(** C8, amended. A chunk that carries non-empty content and a list of tool
    calls whose arguments all decode yields exactly two events: first the
    content string, in an event of the type that the event-type generator
    gives next (start when nothing has been yielded yet, progress
    afterwards), then a progress event with a ToolCallDelta that wraps the
    first mapped tool call with parse status success. When the list holds
    more than one tool call, a warning is issued and the others are not
    used. *)
Theorem content_and_tool_call_events
  chunk choice rest content call others v vs lp fr :
  OpenAIChatCompletionChunk.choices chunk = choice :: rest ->
  ChoiceDelta.content (ChunkChoice.delta choice) = Some content ->
  content <> "" ->
  ChoiceDelta.tool_calls (ChunkChoice.delta choice) = Some (call :: others) ->
  Forall2 (fun call v => json_loads (arguments_of call) = Some v)
    (call :: others) (v :: vs) ->
  _convert_openai_logprobs (ChunkChoice.logprobs choice) = Ok lp ->
  exists fr',
    stream_body json_loads chunk fr = (Ok tt, fr') /\
    Frame.yielded fr' =
      Frame.yielded fr ++
      [event
         (match Frame.event_type fr with
          | NotStarted => ChatCompletionResponseEventType.start
          | Emitting => ChatCompletionResponseEventType.progress
          end)
         (ChatCompletionResponseEvent.Str content) lp;
       event ChatCompletionResponseEventType.progress
         (ChatCompletionResponseEvent.Tool
            (ToolCallDelta.mk
               (ToolCallDelta.Call
                  (ToolCall.mk
                     (OpenAIChatCompletionMessageToolCall.id call)
                     (Function.name (OpenAIChatCompletionMessageToolCall.function call))
                     v))
               ToolCallParseStatus.success))
         lp] /\
    Frame.warned fr' =
      Frame.warned fr ++
      match others with
      | [] => []
      | _ :: _ =>
          ["multiple tool calls found in a single delta, using the first, ignoring the rest"]
      end.
Proof.
  intros Hc Hcontent Hne Ht Hdec Hlp.
  rewrite (stream_body_tool_gen json_loads chunk choice rest _ lp fr Hc Ht)
    by (first [exact Hlp | discriminate]).
  rewrite (tool_calls_ok json_loads _ _ Hdec). cbn [zip_with].
  eexists. split; [reflexivity|].
  cbn [Frame.yielded Frame.warned Frame.stop_reason].
  rewrite Hcontent. unfold content_events, multiple_warnings.
  destruct content as [|a s]; [congruence|].
  cbn [truthy option_truthy string_truthy default from_option id].
  split.
  - rewrite <- app_assoc. destruct (Frame.event_type fr); reflexivity.
  - destruct others; reflexivity.
Qed.

End Claims.

(** *** Concrete runs *)

Lemma tool_call_mapping_roundtrip_witness :
  _convert_openai_tool_calls Json.loads (Some [call_x1])
  = Ok [ToolCall.mk "1" "f" (JObj {[ "x" := JInt 1 ]})].
Proof.
  apply (tool_call_mapping_roundtrip Json.loads [call_x1] [{[ "x" := JInt 1 ]}]).
  repeat constructor.
Defined.

Lemma malformed_arguments_propagate_witness :
  run_stream Json.loads
    [text_chunk (Some "Hel") None;
     tool_chunk (Some "x") [call_1_f; call_bad];
     text_chunk (Some "lo") (Some "stop")]
  = ([event ChatCompletionResponseEventType.start
        (ChatCompletionResponseEvent.Str "Hel") None;
      event ChatCompletionResponseEventType.progress
        (ChatCompletionResponseEvent.Str "x") None],
     Some JSONDecodeError).
Proof.
  apply (proj2 (proj2 (malformed_arguments_propagate Json.loads))
           [text_chunk (Some "Hel") None]
           (tool_chunk (Some "x") [call_1_f; call_bad])
           [text_chunk (Some "lo") (Some "stop")]
           _ [] [call_1_f; call_bad] None _ eq_refl eq_refl eq_refl).
  - apply Exists_cons_tl, Exists_cons_hd. reflexivity.
  - reflexivity.
Defined.

Lemma choice_mapper_contract_witness :
  convert_openai_chat_completion_choice Json.loads
    (OpenAIChoice.mk
       (Val (ChatCompletionMessage.mk None (Some [call_x1])))
       (Val "tool_calls") None)
  = Ok (ChatCompletionResponse.mk
          (CompletionMessage.mk "" StopReason.end_of_message
             [ToolCall.mk "1" "f" (JObj {[ "x" := JInt 1 ]})])
          None).
Proof.
  apply (proj2 (proj2 (choice_mapper_contract Json.loads))
           (OpenAIChoice.mk
              (Val (ChatCompletionMessage.mk None (Some [call_x1])))
              (Val "tool_calls") None)
           (ChatCompletionMessage.mk None (Some [call_x1]))
           "tool_calls" eq_refl eq_refl).
  discriminate.
Defined.

(** C8 as stated fails when the chunk is the first of the stream: the
    content event then has type start, not progress. *)
Lemma content_and_tool_call_first_chunk :
  run_stream Json.loads [tool_chunk (Some "x") [call_1_f]]
  = ([event ChatCompletionResponseEventType.start
        (ChatCompletionResponseEvent.Str "x") None;
      event ChatCompletionResponseEventType.progress
        (tool_call_delta (ToolCall.mk "1" "f" (JObj ∅))) None;
      complete_event (Some StopReason.end_of_turn)],
     None).
Proof. vm_compute. reflexivity. Qed.

Lemma content_and_tool_call_events_witness :
  exists fr',
    stream_body Json.loads (tool_chunk (Some "x") [call_1_f; call_x1])
      (Frame.mk None Emitting [] []) = (Ok tt, fr') /\
    Frame.yielded fr' =
      [event ChatCompletionResponseEventType.progress
         (ChatCompletionResponseEvent.Str "x") None;
       event ChatCompletionResponseEventType.progress
         (tool_call_delta (ToolCall.mk "1" "f" (JObj ∅))) None] /\
    Frame.warned fr' =
      ["multiple tool calls found in a single delta, using the first, ignoring the rest"].
Proof.
  apply (content_and_tool_call_events Json.loads
           (tool_chunk (Some "x") [call_1_f; call_x1]) _ [] "x" call_1_f [call_x1]
           (JObj ∅) [JObj {[ "x" := JInt 1 ]}] None (Frame.mk None Emitting [] [])
           eq_refl eq_refl).
  - discriminate.
  - reflexivity.
  - repeat constructor.
  - reflexivity.
Defined.

Lemma sampling_strategy_branches_witness :
  exists payload σ',
    convert_chat_completion_request request_top_k_0 1 empty_store = (Ok payload, σ') /\
    nvext_get σ' payload "top_k" = Some (VInt 0) /\
    Store.warned σ' = ["top_k must be -1 or >= 1"].
Proof.
  destruct (sampling_strategy_branches request_top_k_0 1 empty_store _ eq_refl)
    as (payload & σ' & Hrun & _ & Htopk & _).
  exists payload, σ'. split; [exact Hrun|].
  destruct (Htopk eq_refl) as (Hnvext & Hwarn & _).
  split; [exact Hnvext|]. apply Hwarn. cbn. lia.
Defined.

Lemma tool_choice_only_with_tools_witness :
  exists payload σ',
    convert_chat_completion_request request_with_tool 1 empty_store = (Ok payload, σ') /\
    payload_get σ' payload "tool_choice" = Some (VStr "required").
Proof.
  destruct (tool_choice_only_with_tools request_with_tool 1 empty_store)
    as (payload & σ' & Hrun & _ & _ & _ & Hboth).
  exists payload, σ'. split; [exact Hrun|].
  apply (Hboth ToolChoice.required); reflexivity.
Defined.

Example request_with_tool_run :
  let '(r, σ) := convert_chat_completion_request request_with_tool 1 empty_store in
  match r with
  | Ok payload =>
      payload_get σ payload "tool_choice" = Some (VStr "required") /\
      payload_get σ payload "tools" = Some (VTools [ToolDefinition.mk "get_weather" None]) /\
      payload_get σ payload "n" = Some (VInt 1) /\
      nvext_get σ payload "top_k" = None /\
      match payload_get σ payload "messages" with
      | Some (VList [VDict m1; VDict m2]) =>
         payload_get σ m1 "role" = Some (VStr "tool") /\
         payload_get σ m2 "stop_reason" = Some (VStr "end_of_turn")
      | _ => False
      end
  | Raise _ => False
  end.
Proof.
  vm_compute.
  exact (conj eq_refl (conj eq_refl (conj eq_refl (conj eq_refl (conj eq_refl eq_refl))))).
Qed.

(** *** Which streams are converted *)

Section StreamRuns.

Variable json_loads : string -> option json.

Lemma forallb_decodes calls :
  forallb (fun call => match json_loads (arguments_of call) with
                       | Some _ => true | None => false end) calls = true ->
  exists vs, Forall2 (fun call v => json_loads (arguments_of call) = Some v) calls vs.
Proof.
  induction calls as [|call calls IH]; cbn.
  - exists []. constructor.
  - destruct (json_loads (arguments_of call)) as [v|] eqn:Hv; [|discriminate].
    intros H. destruct (IH H) as [vs Hvs]. exists (v :: vs). constructor; assumption.
Qed.

Lemma forallb_not_decodes calls :
  forallb (fun call => match json_loads (arguments_of call) with
                       | Some _ => true | None => false end) calls = false ->
  Exists (fun call => json_loads (arguments_of call) = None) calls.
Proof.
  induction calls as [|call calls IH]; cbn; [discriminate|].
  destruct (json_loads (arguments_of call)) as [v|] eqn:Hv.
  - intros H. apply Exists_cons_tl, IH, H.
  - intros _. apply Exists_cons_hd, Hv.
Qed.

(** One chunk: the body returns exactly when the chunk is accepted. *)
Lemma stream_body_returns chunk fr :
  accepted json_loads chunk = true ->
  exists fr', stream_body json_loads chunk fr = (Ok tt, fr').
Proof.
  unfold accepted.
  destruct (OpenAIChatCompletionChunk.choices chunk) as [|choice rest] eqn:Hc;
    [discriminate|].
  destruct (_convert_openai_logprobs (ChunkChoice.logprobs choice)) as [lp|e] eqn:Hlp;
    [|discriminate].
  cbn [andb]. intros Hdec.
  destruct (ChoiceDelta.tool_calls (ChunkChoice.delta choice)) as [[|call others]|] eqn:Ht.
  - rewrite (stream_body_text json_loads chunk choice rest lp fr Hc) by (rewrite ?Ht; done).
    eexists; reflexivity.
  - cbn [default from_option id] in Hdec.
    destruct (forallb_decodes _ Hdec) as [vs Hvs].
    rewrite (stream_body_tool_gen json_loads chunk choice rest _ lp fr Hc Ht) by done.
    rewrite (tool_calls_ok json_loads _ _ Hvs).
    inversion Hvs; subst. cbn [zip_with]. eexists; reflexivity.
  - rewrite (stream_body_text json_loads chunk choice rest lp fr Hc) by (rewrite ?Ht; done).
    eexists; reflexivity.
Qed.

Lemma stream_body_raises chunk fr :
  accepted json_loads chunk = false ->
  exists e fr', stream_body json_loads chunk fr = (Raise e, fr').
Proof.
  unfold accepted.
  destruct (OpenAIChatCompletionChunk.choices chunk) as [|choice rest] eqn:Hc.
  { intros _. unfold stream_body. rewrite Hc. eexists _, _. reflexivity. }
  destruct (_convert_openai_logprobs (ChunkChoice.logprobs choice)) as [lp|e] eqn:Hlp.
  - cbn [andb]. intros Hdec.
    destruct (ChoiceDelta.tool_calls (ChunkChoice.delta choice)) as [calls|] eqn:Ht;
      [|discriminate].
    cbn [default from_option id] in Hdec.
    pose proof (forallb_not_decodes _ Hdec) as Hbad.
    rewrite (stream_body_tool_raise json_loads chunk choice rest calls
               JSONDecodeError lp fr Hc Ht).
    + eexists _, _. reflexivity.
    + intros ->. inversion Hbad.
    + exact (tool_calls_raise json_loads calls Hbad).
    + intros _. exact Hlp.
  - intros _. unfold stream_body. rewrite Hc.
    unfold bind, next_event_type, lift, yield, stream_warn, set_stop_reason, gets, modify, ret.
    cbn [index0]. rewrite Hlp.
    repeat case_match; simplify_eq; eexists _, _; reflexivity.
Qed.

Lemma for_each_returns_iff stream fr :
  (exists fr', for_each (stream_body json_loads) stream fr = (Ok tt, fr'))
  <-> forallb (accepted json_loads) stream = true.
Proof.
  revert fr. induction stream as [|chunk stream IH]; intros fr; cbn [for_each forallb].
  - split; [reflexivity|]. intros _. eexists; reflexivity.
  - unfold bind. rewrite andb_true_iff.
    destruct (accepted json_loads chunk) eqn:Hconv.
    + destruct (stream_body_returns chunk fr Hconv) as [fr1 Hbody].
      rewrite Hbody, (IH fr1). tauto.
    + destruct (stream_body_raises chunk fr Hconv) as (e & fr1 & Hbody).
      rewrite Hbody. split; [intros [? ?]; discriminate|intros [? _]; discriminate].
Qed.



Lemma convertible_accepted chunk :
  convertible json_loads chunk = true -> accepted json_loads chunk = true.
Proof.
  unfold convertible, accepted.
  destruct (OpenAIChatCompletionChunk.choices chunk) as [|choice rest]; [discriminate|].
  destruct (_convert_openai_logprobs (ChunkChoice.logprobs choice)); [|discriminate].
  cbn [andb].
  induction (default [] (ChoiceDelta.tool_calls (ChunkChoice.delta choice)))
    as [|call calls IH]; [reflexivity|].
  cbn [forallb]. rewrite !andb_true_iff. intros [Hcall Hcalls].
  split; [|exact (IH Hcalls)].
  destruct (json_loads (arguments_of call)); [reflexivity|discriminate].
Qed.

Lemma for_each_returns stream fr :
  forallb (convertible json_loads) stream = true ->
  exists fr', for_each (stream_body json_loads) stream fr = (Ok tt, fr').
Proof.
  intros Hconv. apply for_each_returns_iff.
  rewrite forallb_forall in Hconv. apply forallb_forall.
  intros chunk Hin. apply convertible_accepted, Hconv, Hin.
Qed.

(** What one chunk, and what a stream, adds to the events. *)
Lemma stream_body_appends chunk fr r fr' :
  stream_body json_loads chunk fr = (r, fr') ->
  exists evs,
    Frame.yielded fr' = Frame.yielded fr ++ evs /\
    Forall intermediate evs /\
    (length evs <= 2)%nat /\
    (r = Ok tt -> (1 <= length evs)%nat).
Proof.
  unfold stream_body.
  unfold bind, next_event_type, lift, yield, stream_warn, set_stop_reason, gets, modify, ret.
  intros H.
  repeat (case_match; simplify_eq; cbn in * ).
  all: eexists; split;
    [first [rewrite <- app_assoc; reflexivity | reflexivity | symmetry; apply app_nil_r]|].
  all: split; [|cbn; split; [lia|intros; first [lia|discriminate]]].
  all: repeat constructor; cbn; try reflexivity.
  all: unfold event_type_of; cbn.
  all: match goal with
       | H : next ?g = (?a, _) |- ?a <> _ => destruct g; inversion H; discriminate
       end.
Qed.

Lemma for_each_appends stream fr r fr' :
  for_each (stream_body json_loads) stream fr = (r, fr') ->
  exists evs,
    Frame.yielded fr' = Frame.yielded fr ++ evs /\
    Forall intermediate evs /\
    (length evs <= 2 * length stream)%nat /\
    (r = Ok tt -> (length stream <= length evs)%nat).
Proof.
  revert fr. induction stream as [|chunk stream IH]; intros fr; cbn [for_each].
  - intros [= <- <-]. exists []. rewrite app_nil_r. repeat split; try constructor.
  - unfold bind.
    destruct (stream_body json_loads chunk fr) as [[[]|e] fr1] eqn:Hbody.
    + intros Hrest.
      destruct (stream_body_appends _ _ _ _ Hbody) as (evs1 & Hy1 & Hi1 & Hle1 & Hge1).
      destruct (IH _ Hrest) as (evs2 & Hy2 & Hi2 & Hle2 & Hge2).
      exists (evs1 ++ evs2). rewrite Hy2, Hy1, app_assoc. split; [reflexivity|].
      split; [apply Forall_app; split; assumption|].
      rewrite length_app. cbn [length]. specialize (Hge1 eq_refl).
      split; [lia|]. intros Hr. specialize (Hge2 Hr). lia.
    + intros [= <- <-].
      destruct (stream_body_appends _ _ _ _ Hbody) as (evs1 & Hy1 & Hi1 & Hle1 & _).
      exists evs1. split; [assumption|]. split; [assumption|].
      cbn [length]. split; [lia|discriminate].
Qed.

End StreamRuns.

(** *** The events of a stream *)

Section StreamEvents.

Variable json_loads : string -> option json.

(** X1. No chunk is skipped silently. The generator ends normally, after
    the complete event, when every chunk of the stream has a first choice,
    log-probabilities that convert and tool-call arguments that decode to a
    mapping; and when it ends normally, every chunk had a first choice,
    log-probabilities that convert and tool-call arguments that decode. A
    stream with any other chunk ends with an exception. *)
Theorem stream_ends_normally stream :
  (forallb (convertible json_loads) stream = true ->
   snd (run_stream json_loads stream) = None)
  /\
  (snd (run_stream json_loads stream) = None ->
   forallb (accepted json_loads) stream = true).
Proof.
  rewrite run_stream_unfold. split.
  - intros Hconv.
    destruct (for_each_returns json_loads stream initial_frame Hconv) as [fr Hrun].
    rewrite Hrun. reflexivity.
  - rewrite <- (for_each_returns_iff json_loads stream initial_frame).
    destruct (for_each (stream_body json_loads) stream initial_frame) as [[[]|e] fr].
    + eauto.
    + discriminate.
Qed.

(** X2. A non-empty stream of convertible chunks is converted to a start
    event, progress events and a final complete event; every chunk gives one
    or two of them. *)
Theorem convertible_stream_lifecycle stream :
  forallb (convertible json_loads) stream = true ->
  stream <> [] ->
  exists evs,
    run_stream json_loads stream = (evs, None) /\
    lifecycle (map event_type_of evs) = true /\
    (length stream + 1 <= length evs <= 2 * length stream + 1)%nat.
Proof.
  intros Hconv Hne.
  destruct (for_each_returns json_loads stream initial_frame Hconv) as [fr Hrun].
  assert (Hstream : run_stream json_loads stream
                    = (Frame.yielded fr ++ [complete_event (Frame.stop_reason fr)], None))
    by (rewrite run_stream_unfold, Hrun; reflexivity).
  eexists. split; [exact Hstream|]. split.
  - exact (lifecycle_of_nonempty_stream json_loads stream _ Hne Hstream).
  - destruct (for_each_appends json_loads _ _ _ _ Hrun) as (evs & Hy & _ & Hle & Hge).
    cbn in Hy. rewrite Hy, length_app. cbn [length]. specialize (Hge eq_refl). lia.
Qed.

(** X3. When the stream is converted, the complete event carries the mapped
    finish reason of the last chunk, whatever finish reasons the earlier
    chunks carried: a last chunk without finish reason gives end_of_turn. *)
Theorem complete_event_carries_last_finish_reason stream chunk choice rest :
  forallb (convertible json_loads) (stream ++ [chunk]) = true ->
  OpenAIChatCompletionChunk.choices chunk = choice :: rest ->
  exists evs,
    run_stream json_loads (stream ++ [chunk])
    = (evs ++
       [complete_event
          (Some (_convert_openai_finish_reason (ChunkChoice.finish_reason choice)))],
       None).
Proof.
  intros Hconv Hc.
  destruct (for_each_returns json_loads _ initial_frame Hconv) as [fr Hrun].
  exists (Frame.yielded fr). rewrite run_stream_unfold, Hrun.
  rewrite for_each_app in Hrun.
  destruct (for_each (stream_body json_loads) stream initial_frame) as [[[]|e] fr1];
    [|discriminate].
  cbn [for_each] in Hrun. unfold bind in Hrun.
  destruct (stream_body json_loads chunk fr1) as [[[]|e] fr2] eqn:Hbody; [|discriminate].
  injection Hrun as <-.
  rewrite (stream_body_stop_reason json_loads _ _ _ _ _ Hc Hbody). reflexivity.
Qed.

(** X4. A stream of chunks without tool calls is converted event by event:
    there is one event per chunk, in order, whose delta is the content of
    the chunk (the empty string when it has none), followed by the complete
    event with the empty string. *)
Theorem text_stream_deltas stream :
  forallb text_only stream = true ->
  exists evs,
    run_stream json_loads stream = (evs, None) /\
    map event_delta evs
    = map (fun chunk => ChatCompletionResponseEvent.Str (chunk_text chunk)) stream
      ++ [ChatCompletionResponseEvent.Str ""].
Proof.
  intros Htext. rewrite run_stream_unfold.
  assert (Hloop : forall fr, exists fr',
    for_each (stream_body json_loads) stream fr = (Ok tt, fr') /\
    map event_delta (Frame.yielded fr')
    = map event_delta (Frame.yielded fr)
      ++ map (fun chunk => ChatCompletionResponseEvent.Str (chunk_text chunk)) stream).
  { induction stream as [|chunk stream IH]; intros fr.
    - exists fr. split; [reflexivity|]. cbn. rewrite app_nil_r. reflexivity.
    - cbn [forallb] in Htext. apply andb_true_iff in Htext as [Hchunk Hrest].
      unfold text_only in Hchunk. unfold chunk_text at 1. cbn [map].
      destruct (OpenAIChatCompletionChunk.choices chunk) as [|choice rest] eqn:Hc;
        [discriminate|].
      apply andb_true_iff in Hchunk as [Htools Hlp].
      apply negb_true_iff in Htools.
      destruct (_convert_openai_logprobs (ChunkChoice.logprobs choice)) as [lp|e] eqn:Hlp';
        [|discriminate].
      cbn [for_each]. unfold bind.
      rewrite (stream_body_text json_loads chunk choice rest lp fr Hc Htools Hlp').
      destruct (IH Hrest (Frame.mk
        (Some (_convert_openai_finish_reason (ChunkChoice.finish_reason choice)))
        Emitting
        (Frame.yielded fr ++
         [event (fst (next (Frame.event_type fr)))
            (ChatCompletionResponseEvent.Str
               (or_default (ChoiceDelta.content (ChunkChoice.delta choice)) "")) lp])
        (Frame.warned fr))) as (fr' & Hrun & Hdeltas).
      exists fr'. split; [exact Hrun|]. rewrite Hdeltas.
      cbn [Frame.yielded]. rewrite map_app, <- app_assoc. cbn [map app].
      do 3 f_equal. unfold event_delta, event. cbn. f_equal.
      destruct (ChoiceDelta.content (ChunkChoice.delta choice)) as [[|a s]|]; reflexivity. }
  destruct (Hloop initial_frame) as (fr' & Hrun & Hdeltas).
  rewrite Hrun. eexists. split; [reflexivity|].
  rewrite map_app, Hdeltas. reflexivity.
Qed.

(** X5. A chunk whose list of choices is empty makes the generator raise
    IndexError when it reaches that chunk: the events of the earlier chunks
    have been yielded, no complete event follows and the later chunks are
    not converted. *)
Theorem chunk_without_choices_raises pre chunk post :
  forallb (convertible json_loads) pre = true ->
  OpenAIChatCompletionChunk.choices chunk = [] ->
  exists evs sr,
    run_stream json_loads pre = (evs ++ [complete_event sr], None) /\
    run_stream json_loads (pre ++ chunk :: post) = (evs, Some IndexError).
Proof.
  intros Hconv Hc.
  destruct (for_each_returns json_loads pre initial_frame Hconv) as [fr Hrun].
  exists (Frame.yielded fr), (Frame.stop_reason fr).
  rewrite !run_stream_unfold, for_each_app, Hrun. split; [reflexivity|].
  cbn [for_each]. unfold bind at 1. unfold stream_body. rewrite Hc. reflexivity.
Qed.

(** X6. The events are produced on line: the events yielded for a prefix
    of the stream, the complete event apart, are yielded unchanged and
    first when more chunks follow, whatever those chunks are. *)
Theorem events_of_prefix_are_kept pre post evs sr :
  run_stream json_loads pre = (evs ++ [complete_event sr], None) ->
  exists rest, fst (run_stream json_loads (pre ++ post)) = evs ++ rest.
Proof.
  rewrite !run_stream_unfold, for_each_app.
  destruct (for_each (stream_body json_loads) pre initial_frame) as [[[]|e] fr];
    [|discriminate].
  intros [= Hevs]. apply app_inj_tail in Hevs as [<- _].
  destruct (for_each (stream_body json_loads) post fr) as [r fr'] eqn:Hpost.
  destruct (for_each_appends json_loads _ _ _ _ Hpost) as (evs' & Hy & _).
  destruct r as [[]|e]; cbn [fst]; rewrite Hy.
  - exists (evs' ++ [complete_event (Frame.stop_reason fr')]).
    rewrite app_assoc. reflexivity.
  - exists evs'. reflexivity.
Qed.

(** X7. Only the last event of a normal run is terminal: every other event
    carries no stop reason and is not a complete event; and a run that ends
    with an exception yields no complete event and no stop reason at all. *)
Theorem only_last_event_is_terminal stream :
  match run_stream json_loads stream with
  | (evs, None) =>
      exists before sr,
        evs = before ++ [complete_event sr] /\ Forall intermediate before
  | (evs, Some _) => Forall intermediate evs
  end.
Proof.
  rewrite run_stream_unfold.
  destruct (for_each (stream_body json_loads) stream initial_frame) as [r fr] eqn:Hrun.
  destruct (for_each_appends json_loads _ _ _ _ Hrun) as (evs & Hy & Hi & _).
  cbn in Hy. destruct r as [[]|e].
  - exists (Frame.yielded fr), (Frame.stop_reason fr). split; [reflexivity|].
    rewrite Hy. exact Hi.
  - rewrite Hy. exact Hi.
Qed.

End StreamEvents.

(** *** The log-probability mapper *)

Section LogprobsRaise.

Variable json_loads : string -> option json.

(** X8. Absent log-probabilities are converted to an absent value, but
    log-probabilities that are present without a content list make the
    mapper raise TypeError; the non-stream mapper then raises it after the
    tool calls have been converted, and the stream mapper raises it at the
    chunk that carries them, before that chunk yields any event. *)
Theorem logprobs_without_content_raise :
  _convert_openai_logprobs None = Ok None /\
  _convert_openai_logprobs (Some (OpenAIChoiceLogprobs.mk None)) = Raise TypeError /\
  (forall choice message finish_reason tool_calls,
     OpenAIChoice.message choice = Val message ->
     OpenAIChoice.finish_reason choice = Val finish_reason ->
     finish_reason <> "" ->
     _convert_openai_tool_calls json_loads (ChatCompletionMessage.tool_calls message)
     = Ok tool_calls ->
     OpenAIChoice.logprobs choice = Some (OpenAIChoiceLogprobs.mk None) ->
     convert_openai_chat_completion_choice json_loads choice = Raise TypeError) /\
  (forall pre chunk post choice rest,
     forallb (convertible json_loads) pre = true ->
     OpenAIChatCompletionChunk.choices chunk = choice :: rest ->
     ChunkChoice.logprobs choice = Some (OpenAIChoiceLogprobs.mk None) ->
     truthy (ChoiceDelta.tool_calls (ChunkChoice.delta choice)) = false \/
     truthy (ChoiceDelta.content (ChunkChoice.delta choice)) = true ->
     exists evs sr,
       run_stream json_loads pre = (evs ++ [complete_event sr], None) /\
       run_stream json_loads (pre ++ chunk :: post) = (evs, Some TypeError)).
Proof.
  split; [reflexivity|]. split; [reflexivity|]. split.
  - intros choice message finish_reason tool_calls Hm Hf Hne Ht Hlp.
    unfold convert_openai_chat_completion_choice. rewrite Hm, Hf.
    destruct finish_reason as [|a s]; [congruence|]. cbn.
    rewrite Ht, Hlp. reflexivity.
  - intros pre chunk post choice rest Hconv Hc Hlp Hcase.
    destruct (for_each_returns json_loads pre initial_frame Hconv) as [fr Hrun].
    exists (Frame.yielded fr), (Frame.stop_reason fr).
    rewrite !run_stream_unfold, for_each_app, Hrun. split; [reflexivity|].
    cbn [for_each]. unfold bind at 1. unfold stream_body. rewrite Hc.
    unfold bind, next_event_type, lift, yield, stream_warn, set_stop_reason, gets, modify, ret.
    cbn [index0]. rewrite Hlp.
    destruct Hcase as [Hcase | Hcase]; rewrite Hcase;
      repeat (case_match; simplify_eq; cbn in * ); reflexivity.
Qed.

End LogprobsRaise.

Lemma logprobs_by_token_snoc tops lp :
  logprobs_by_token_of (tops ++ [lp])
  = <[TopLogprob.token lp := TopLogprob.logprob lp]> (logprobs_by_token_of tops).
Proof. unfold logprobs_by_token_of. rewrite foldl_app. reflexivity. Qed.

Lemma logprobs_by_token_lookup tops token :
  logprobs_by_token_of tops !! token
  = TopLogprob.logprob <$> last (filter (fun lp => TopLogprob.token lp = token) tops).
Proof.
  induction tops as [|lp tops IH] using rev_ind; [reflexivity|].
  rewrite logprobs_by_token_snoc, filter_app.
  destruct (decide (TopLogprob.token lp = token)) as [Heq|Hne].
  - rewrite filter_cons_True, filter_nil by exact Heq.
    rewrite last_snoc. cbn. rewrite Heq. apply lookup_insert_eq.
  - rewrite filter_cons_False, filter_nil, app_nil_r by exact Hne.
    rewrite lookup_insert_ne by exact Hne. exact IH.
Qed.

(** X9. Log-probabilities that have a content list are converted position
    by position: the result has one record per position, in order, and the
    record of a position maps a token to the log-probability of the last
    alternative of that position with this token; a token that is no
    alternative of the position, the position's own token included, is not
    in the record. *)
Theorem logprobs_records_by_position contents :
  exists records,
    _convert_openai_logprobs (Some (OpenAIChoiceLogprobs.mk (Some contents)))
    = Ok (Some records) /\
    length records = length contents /\
    forall i content,
      contents !! i = Some content ->
      exists record,
        records !! i = Some record /\
        forall token,
          TokenLogProbs.logprobs_by_token record !! token
          = TopLogprob.logprob
              <$> last (filter (fun lp => TopLogprob.token lp = token)
                          (ChatCompletionTokenLogprob.top_logprobs content)).
Proof.
  eexists. split; [reflexivity|]. split; [apply length_map|].
  intros i content Hi. eexists. split.
  - rewrite list_lookup_fmap, Hi. reflexivity.
  - intros token. cbn. apply logprobs_by_token_lookup.
Qed.

(** *** The request mapper, entry by entry *)

Lemma convert_message_result message objects warned :
  _convert_message message (Store.mk objects warned)
  = (Ok (VDict (fresh (dom objects))),
     Store.mk (<[fresh (dom objects) := message_entries message]> objects) warned).
Proof.
  unfold _convert_message, Message_dict.
  unfold bind at 1. cbn [new_dict Store.objects Store.warned].
  set (l := fresh (dom objects)).
  set (d := match Message.stop_reason message with
            | Some r => _ | None => _ end).
  assert (Hrole : d !! "role" = Some (VStr (Message.role message))).
  { subst d. destruct (Message.stop_reason message); simplify_map_eq; reflexivity. }
  unfold bind at 1. rewrite (dict_getitem_top _ _ _ _ _ _ Hrole).
  unfold bind at 1.
  set (d1 := if String.eqb (Message.role message) "ipython"
             then <["role" := VStr "tool"]> d else d).
  assert (Hstep1 :
    (if eq_str (VStr (Message.role message)) "ipython"
     then dict_update l "role" (VStr "tool") else ret tt)
      (Store.mk (<[l := d]> objects) warned)
    = (Ok tt, Store.mk (<[l := d1]> objects) warned)).
  { subst d1. cbn [eq_str]. destruct (String.eqb _ _).
    - apply dict_update_top.
    - reflexivity. }
  rewrite Hstep1.
  unfold bind at 1. rewrite dict_contains_top.
  unfold bind at 1.
  assert (Hstop : d1 !! "stop_reason" = VStopReason <$> Message.stop_reason message).
  { subst d1 d. destruct (String.eqb _ _), (Message.stop_reason message);
      simplify_map_eq; reflexivity. }
  rewrite Hstop.
  assert (Hfinal :
    match Message.stop_reason message with
    | Some r => <["stop_reason" := VStr (StopReason.value r)]> d1
    | None => d1
    end = message_entries message).
  { subst d1 d. unfold message_entries.
    destruct (String.eqb _ _) eqn:Hip, (Message.stop_reason message);
      apply map_eq; intros k;
      destruct (decide (k = "role")) as [->|];
      [simplify_map_eq; try reflexivity| |simplify_map_eq; try reflexivity|
       |simplify_map_eq; try reflexivity| |simplify_map_eq; try reflexivity|];
      (destruct (decide (k = "stop_reason")) as [->|];
       [simplify_map_eq; reflexivity|]);
      (destruct (decide (k = "content")) as [->|];
       [simplify_map_eq; reflexivity|]);
      rewrite ?lookup_insert_ne by done; rewrite ?lookup_singleton_ne by done;
      reflexivity. }
  destruct (Message.stop_reason message) as [r|]; cbn [fmap option_fmap option_map].
  - rewrite bool_decide_eq_true_2 by eauto.
    unfold bind at 1. rewrite (dict_getitem_top _ _ (VStopReason r)) by exact Hstop.
    unfold bind at 1. cbn [lift enum_value]. rewrite dict_update_top.
    cbn [ret]. rewrite Hfinal. reflexivity.
  - rewrite bool_decide_eq_false_2 by (intros [? ?]; discriminate).
    cbn [ret]. rewrite Hfinal. reflexivity.
Qed.

Lemma map_convert_message_result messages σ :
  exists locs σ',
    map_M _convert_message messages σ = (Ok (VDict <$> locs), σ') /\
    extends σ σ' /\
    Forall2 (fun l message => Store.objects σ' !! l = Some (message_entries message))
      locs messages /\
    Forall (fun l => Store.objects σ !! l = None) locs /\
    NoDup locs.
Proof.
  revert σ. induction messages as [|message messages IH]; intros σ.
  - exists [], σ. split; [reflexivity|]. split; [apply extends_refl|].
    split; [constructor|]. split; constructor.
  - destruct σ as [objects warned].
    pose proof (convert_message_result message objects warned) as Hrun1.
    set (l := fresh (dom objects)) in *.
    destruct (IH (Store.mk (<[l := message_entries message]> objects) warned))
      as (locs & σ2 & Hrun2 & Hext2 & Hlocs & Hfresh & Hnodup).
    cbn [Store.objects] in Hfresh.
    exists (l :: locs), σ2. split; [|split; [|split; [|split]]].
    + cbn [map_M]. unfold bind. rewrite Hrun1, Hrun2. reflexivity.
    + eapply extends_trans; [apply extends_insert_fresh|exact Hext2].
    + constructor; [|exact Hlocs].
      apply Hext2. cbn [Store.objects]. apply lookup_insert_eq.
    + constructor; [apply fresh_loc_not_in|].
      eapply Forall_impl; [exact Hfresh|]. cbn [Store.objects].
      intros l' Hl'. apply lookup_insert_None in Hl'. tauto.
    + constructor; [|exact Hnodup].
      intros Hin. rewrite Forall_forall in Hfresh.
      specialize (Hfresh l Hin). rewrite lookup_insert_eq in Hfresh. discriminate.
Qed.

(** The run of the request mapper, with what it stores for the messages. *)
Lemma request_mapper_run_messages request n σ :
  exists nvext extra_body payload locs objects,
    convert_chat_completion_request request n σ =
    (Ok payload,
     Store.mk
       (<[nvext := nvext_entries request]>
          (<[payload := payload_entries request n (VDict <$> locs) extra_body]>
             (<[extra_body := {[ "nvext" := VDict nvext ]}]> objects)))
       (Store.warned σ ++ request_warnings request))
    /\ nvext <> payload /\ nvext <> extra_body /\ payload <> extra_body
    /\ (forall l d, Store.objects σ !! l = Some d ->
          objects !! l = Some d /\ l <> nvext /\ l <> payload /\ l <> extra_body)
    /\ Store.objects σ !! nvext = None
    /\ Store.objects σ !! payload = None
    /\ Store.objects σ !! extra_body = None
    /\ Forall2
         (fun l message =>
            objects !! l = Some (message_entries message)
            /\ l <> nvext /\ l <> payload /\ l <> extra_body
            /\ Store.objects σ !! l = None)
         locs (ChatCompletionRequest.messages request)
    /\ NoDup locs.
Proof.
  destruct σ as [objects0 warned].
  destruct (map_convert_message_result (ChatCompletionRequest.messages request)
              (Store.mk (<[fresh (dom objects0) := ∅]> objects0) warned))
    as (locs & [objects warned'] & Hmsgs & [Hwarned Hobjects] & Hlocs & Hfresh & Hnodup).
  cbn [Store.objects Store.warned] in Hwarned, Hobjects, Hlocs, Hfresh. subst warned'.
  destruct (request_mapper_run_after_messages request n objects0 warned
              (VDict <$> locs) objects Hmsgs Hobjects)
    as (Hrun & Hne1 & Hne2 & Hne3 & Hframe).
  set (nvext := fresh (dom objects0)) in *.
  set (extra_body := fresh (dom objects)) in *.
  set (payload := fresh (dom (<[extra_body := _]> objects))) in *.
  cbn [Store.objects Store.warned].
  assert (Hfresh_of : forall l, (exists d, objects !! l = Some d) ->
                      l <> payload /\ l <> extra_body).
  { intros l [d Hl]. split; intros ->.
    - pose proof (fresh_loc_not_in (<[extra_body := {[ "nvext" := VDict nvext ]}]> objects)) as Hf.
      fold payload in Hf. rewrite lookup_insert_ne, Hl in Hf by done. discriminate.
    - pose proof (fresh_loc_not_in objects) as Hf. fold extra_body in Hf.
      rewrite Hl in Hf. discriminate. }
  assert (Hnone : forall l, l <> nvext -> objects !! l = None -> objects0 !! l = None).
  { intros l Hl Hnone. destruct (objects0 !! l) as [d|] eqn:Hd; [|reflexivity].
    rewrite (Hobjects l d) in Hnone; [discriminate|].
    rewrite lookup_insert_ne by done. exact Hd. }
  exists nvext, extra_body, payload, locs, objects.
  split; [exact Hrun|]. do 4 (split; [assumption|]).
  split; [apply fresh_loc_not_in|].
  split.
  { apply Hnone; [congruence|].
    pose proof (fresh_loc_not_in (<[extra_body := {[ "nvext" := VDict nvext ]}]> objects)) as Hf.
    fold payload in Hf. rewrite lookup_insert_ne in Hf by done. exact Hf. }
  split; [apply Hnone; [congruence|apply fresh_loc_not_in]|].
  split; [|exact Hnodup].
  clear Hmsgs Hrun Hnodup. induction Hlocs as [|l message locs messages Hl _ IH].
  - constructor.
  - inversion Hfresh as [|? ? Hfl Hfresh']; subst. constructor; [|exact (IH Hfresh')].
    assert (Hlnv : l <> nvext) by (intros ->; rewrite lookup_insert_eq in Hfl; discriminate).
    destruct (Hfresh_of l (ex_intro _ _ Hl)) as [Hlp Hle].
    repeat split; try assumption.
    rewrite lookup_insert_ne in Hfl by done. exact Hfl.
Qed.

(** Reading an object that the mapper did not create from the store it
    returns. *)
Lemma lookup_canonical_other (nvext extra_body payload l : loc)
  (N P E : gmap string pyval) (objects : gmap loc (gmap string pyval)) :
  l <> nvext -> l <> payload -> l <> extra_body ->
  <[nvext := N]> (<[payload := P]> (<[extra_body := E]> objects)) !! l = objects !! l.
Proof. intros H1 H2 H3. rewrite !lookup_insert_ne by done. reflexivity. Qed.

Lemma payload_entries_other request n messages extra_body k :
  k ∉ payload_keys -> payload_entries request n messages extra_body !! k = None.
Proof.
  unfold payload_keys. rewrite !not_elem_of_cons.
  intros (? & ? & ? & ? & ? & ? & ? & ? & ? & ? & ? & ? & ? & _).
  unfold payload_entries.
  rewrite lookup_sampling_entries, lookup_logprobs_entries, lookup_tools_entries by done.
  rewrite !lookup_insert_ne by done. apply lookup_singleton_ne. done.
Qed.

Lemma payload_entries_fixed request n messages extra_body k :
  k ∈ ["model"; "messages"; "stream"; "n"; "extra_body"; "extra_headers"] ->
  payload_entries request n messages extra_body !! k
  = ({[ "model" := VStr (ChatCompletionRequest.model request);
        "messages" := VList messages;
        "stream" := of_optional_bool (ChatCompletionRequest.stream request);
        "n" := VInt n;
        "extra_body" := VDict extra_body;
        "extra_headers" :=
          VBytesDict [("User-Agent", "llama-stack: nvidia-inference-adapter")] ]}
      : gmap string pyval) !! k.
Proof.
  intros Hk. unfold payload_entries.
  rewrite lookup_sampling_entries, lookup_logprobs_entries, lookup_tools_entries;
    [reflexivity|..]; intros ->; revert Hk; rewrite !elem_of_cons, elem_of_nil;
    intros Hk; repeat (destruct Hk as [Hk|Hk]; [discriminate|]); exact Hk.
Qed.

Lemma payload_entries_temperature request n messages extra_body :
  payload_entries request n messages extra_body !! "temperature"
  = match ChatCompletionRequest.sampling_params request with
    | Some sp =>
        if String.eqb (SamplingParams.strategy sp) "greedy"
        then Some (VFloat (SamplingParams.temperature sp)) else None
    | None => None
    end.
Proof.
  unfold payload_entries. set (base := logprobs_entries_of _ _).
  assert (Hbase : base !! "temperature" = None).
  { subst base. rewrite lookup_logprobs_entries, lookup_tools_entries by done.
    reflexivity. }
  unfold sampling_entries_of.
  destruct (ChatCompletionRequest.sampling_params request) as [sp|]; [|exact Hbase].
  destruct (String.eqb (SamplingParams.strategy sp) "top_p") eqn:H1.
  { apply String.eqb_eq in H1. rewrite H1. cbn [String.eqb Ascii.eqb Bool.eqb].
    rewrite lookup_insert_ne by done.
    rewrite lookup_max_tokens_entries by done. exact Hbase. }
  destruct (String.eqb (SamplingParams.strategy sp) "top_k") eqn:H2.
  { apply String.eqb_eq in H2. rewrite H2. cbn [String.eqb Ascii.eqb Bool.eqb].
    rewrite lookup_max_tokens_entries by done. exact Hbase. }
  destruct (String.eqb (SamplingParams.strategy sp) "greedy").
  - apply lookup_insert_eq.
  - rewrite lookup_max_tokens_entries by done. exact Hbase.
Qed.

Lemma payload_entries_top_p request n messages extra_body :
  payload_entries request n messages extra_body !! "top_p"
  = match ChatCompletionRequest.sampling_params request with
    | Some sp =>
        if String.eqb (SamplingParams.strategy sp) "top_p"
        then Some (VFloat (SamplingParams.top_p sp)) else None
    | None => None
    end.
Proof.
  unfold payload_entries. set (base := logprobs_entries_of _ _).
  assert (Hbase : base !! "top_p" = None).
  { subst base. rewrite lookup_logprobs_entries, lookup_tools_entries by done.
    reflexivity. }
  unfold sampling_entries_of.
  destruct (ChatCompletionRequest.sampling_params request) as [sp|]; [|exact Hbase].
  destruct (String.eqb (SamplingParams.strategy sp) "top_p").
  { apply lookup_insert_eq. }
  destruct (String.eqb (SamplingParams.strategy sp) "top_k").
  { rewrite lookup_max_tokens_entries by done. exact Hbase. }
  destruct (String.eqb (SamplingParams.strategy sp) "greedy").
  - rewrite lookup_insert_ne by done.
    rewrite lookup_max_tokens_entries by done. exact Hbase.
  - rewrite lookup_max_tokens_entries by done. exact Hbase.
Qed.

Lemma payload_entries_max_tokens request n messages extra_body :
  payload_entries request n messages extra_body !! "max_tokens"
  = match ChatCompletionRequest.sampling_params request with
    | Some sp =>
        match SamplingParams.max_tokens sp with
        | Some max_tokens =>
            if (max_tokens =? 0)%Z then None else Some (VInt max_tokens)
        | None => None
        end
    | None => None
    end.
Proof.
  unfold payload_entries. set (base := logprobs_entries_of _ _).
  assert (Hbase : base !! "max_tokens" = None).
  { subst base. rewrite lookup_logprobs_entries, lookup_tools_entries by done.
    reflexivity. }
  unfold sampling_entries_of.
  destruct (ChatCompletionRequest.sampling_params request) as [sp|]; [|exact Hbase].
  set (with_max := match SamplingParams.max_tokens sp with Some _ => _ | None => _ end).
  assert (Hmax : with_max !! "max_tokens"
                 = match SamplingParams.max_tokens sp with
                   | Some max_tokens =>
                       if (max_tokens =? 0)%Z then None else Some (VInt max_tokens)
                   | None => None
                   end).
  { subst with_max. destruct (SamplingParams.max_tokens sp) as [z|]; [|exact Hbase].
    destruct (z =? 0)%Z; [exact Hbase|apply lookup_insert_eq]. }
  destruct (String.eqb (SamplingParams.strategy sp) "top_p");
    [|destruct (String.eqb (SamplingParams.strategy sp) "top_k");
      [|destruct (String.eqb (SamplingParams.strategy sp) "greedy")]];
    rewrite ?lookup_insert_ne by done; exact Hmax.
Qed.

Lemma nvext_entries_keys request k :
  is_Some (nvext_entries request !! k) -> k = "repetition_penalty" \/ k = "top_k".
Proof.
  unfold nvext_entries.
  destruct (ChatCompletionRequest.sampling_params request) as [sp|].
  - destruct (decide (k = "repetition_penalty")) as [|Hrp]; [tauto|].
    destruct (decide (k = "top_k")) as [|Htk]; [tauto|].
    intros [v Hv]. exfalso. revert Hv.
    destruct (String.eqb (SamplingParams.strategy sp) "top_p");
      [|destruct (String.eqb (SamplingParams.strategy sp) "top_k");
        [|destruct (String.eqb (SamplingParams.strategy sp) "greedy")]];
      rewrite ?lookup_insert_ne by done; rewrite lookup_singleton_ne by done;
      discriminate.
  - intros [v Hv]. rewrite lookup_empty in Hv. discriminate.
Qed.

Lemma nvext_entries_repetition_penalty request :
  nvext_entries request !! "repetition_penalty"
  = (fun sp => VFloat (SamplingParams.repetition_penalty sp))
      <$> ChatCompletionRequest.sampling_params request.
Proof.
  unfold nvext_entries.
  destruct (ChatCompletionRequest.sampling_params request) as [sp|]; [|reflexivity].
  destruct (String.eqb (SamplingParams.strategy sp) "top_p");
    [|destruct (String.eqb (SamplingParams.strategy sp) "top_k");
      [|destruct (String.eqb (SamplingParams.strategy sp) "greedy")]];
    rewrite ?lookup_insert_ne by done; apply lookup_singleton_eq.
Qed.

Lemma request_warnings_length request :
  (length (request_warnings request) <= 1)%nat /\
  (request_warnings request <> [] ->
   exists sp, ChatCompletionRequest.sampling_params request = Some sp
              /\ SamplingParams.strategy sp = "top_k").
Proof.
  unfold request_warnings.
  destruct (ChatCompletionRequest.sampling_params request) as [sp|];
    [|split; [cbn; lia|congruence]].
  destruct (String.eqb (SamplingParams.strategy sp) "top_p");
    [split; [cbn; lia|congruence]|].
  destruct (String.eqb (SamplingParams.strategy sp) "top_k") eqn:H;
    [|split; [cbn; lia|congruence]].
  apply String.eqb_eq in H.
  split; [destruct (_ && _); cbn; lia|]. intros _. eauto.
Qed.

(** X10. The message mapper returns the dictionary that [message.dict()]
    created, updated in place: the role "ipython" becomes "tool" and every
    other role is kept, a stop reason is replaced by its string value, and
    no other entry is touched. The dictionary is a new object, the
    dictionaries that existed before are unchanged, and no warning is
    issued. *)
Theorem message_mapper_updates_role_and_stop_reason message σ :
  exists out_dict σ0 σ',
    Message_dict message σ = (Ok out_dict, σ0) /\
    _convert_message message σ = (Ok (VDict out_dict), σ') /\
    Store.objects σ !! out_dict = None /\
    extends σ σ' /\
    payload_get σ' out_dict "role"
    = Some (VStr (if String.eqb (Message.role message) "ipython"
                  then "tool" else Message.role message)) /\
    payload_get σ' out_dict "stop_reason"
    = (fun r => VStr (StopReason.value r)) <$> Message.stop_reason message /\
    forall k, k <> "role" -> k <> "stop_reason" ->
      payload_get σ' out_dict k = payload_get σ0 out_dict k.
Proof.
  destruct σ as [objects warned].
  eexists _, _, _. split; [reflexivity|].
  split; [apply convert_message_result|].
  split; [apply fresh_loc_not_in|].
  split; [apply extends_insert_fresh|].
  unfold payload_get. cbn [Store.objects]. rewrite !lookup_insert_eq.
  cbn [mbind option_bind]. unfold message_entries.
  destruct (Message.stop_reason message) as [r|]; cbn [fmap option_fmap option_map].
  - split; [simplify_map_eq; reflexivity|].
    split; [simplify_map_eq; reflexivity|].
    intros k H1 H2. rewrite !lookup_insert_ne by done.
    destruct (decide (k = "content")) as [->|]; simplify_map_eq; reflexivity.
  - split; [simplify_map_eq; reflexivity|].
    split; [simplify_map_eq; reflexivity|].
    intros k H1 H2. rewrite !lookup_insert_ne by done. reflexivity.
Qed.

(** X11. The payload's messages entry is a list with one dictionary per
    message of the request, in the order of the request. Each of them is an
    object of its own, created by this call, and holds what the message
    mapper produces for that message. *)
Theorem request_messages_converted_in_order request n σ :
  exists payload σ' locs,
    convert_chat_completion_request request n σ = (Ok payload, σ') /\
    payload_get σ' payload "messages" = Some (VList (VDict <$> locs)) /\
    NoDup locs /\
    Forall2
      (fun l message =>
         Store.objects σ' !! l = Some (message_entries message)
         /\ Store.objects σ !! l = None /\ l <> payload)
      locs (ChatCompletionRequest.messages request).
Proof.
  destruct (request_mapper_run_messages request n σ)
    as (nvext & extra_body & payload & locs & objects & Hrun & Hne1 & Hne2 & Hne3
        & _ & _ & _ & _ & Hlocs & Hnodup).
  eexists _, _, locs. split; [exact Hrun|].
  rewrite payload_get_canonical by done.
  split; [rewrite payload_entries_fixed by set_solver; reflexivity|].
  split; [exact Hnodup|].
  eapply Forall2_impl; [exact Hlocs|].
  intros l message (Hl & H1 & H2 & H3 & Hfresh). cbn [Store.objects].
  rewrite lookup_canonical_other by done. auto.
Qed.

(** X12. The fixed part of the payload: the model name, the stream flag
    (None when the request has none) and n are forwarded as given, the
    User-Agent header is always set, and extra_body is a dictionary whose
    only entry, nvext, refers to the dictionary that receives the
    provider-specific sampling parameters. *)
Theorem request_fixed_fields request n σ :
  exists payload σ' extra_body nvext,
    convert_chat_completion_request request n σ = (Ok payload, σ') /\
    payload_get σ' payload "model" = Some (VStr (ChatCompletionRequest.model request)) /\
    payload_get σ' payload "stream"
    = Some (match ChatCompletionRequest.stream request with
            | Some b => VBool b
            | None => VNone
            end) /\
    payload_get σ' payload "n" = Some (VInt n) /\
    payload_get σ' payload "extra_headers"
    = Some (VBytesDict [("User-Agent", "llama-stack: nvidia-inference-adapter")]) /\
    payload_get σ' payload "extra_body" = Some (VDict extra_body) /\
    Store.objects σ' !! extra_body = Some {[ "nvext" := VDict nvext ]} /\
    Store.objects σ' !! nvext = Some (nvext_entries request) /\
    nvext <> payload /\ nvext <> extra_body /\ extra_body <> payload.
Proof.
  destruct (request_mapper_run_messages request n σ)
    as (nvext & extra_body & payload & locs & objects & Hrun & Hne1 & Hne2 & Hne3 & _).
  eexists _, _, extra_body, nvext. split; [exact Hrun|].
  rewrite !payload_get_canonical by done.
  rewrite !payload_entries_fixed by set_solver. cbn [Store.objects].
  split; [reflexivity|]. split; [reflexivity|]. split; [reflexivity|].
  split; [reflexivity|]. split; [reflexivity|].
  split; [rewrite !lookup_insert_ne by done; apply lookup_insert_eq|].
  split; [apply lookup_insert_eq|]. auto.
Qed.

(** X13. The tools entry is the request's tool list when that list is not
    empty, and is absent when the request has no tools or an empty list.
    With a log-probability configuration the payload asks for
    log-probabilities (logprobs is True) and forwards top_k as top_logprobs;
    without one it has neither entry. *)
Theorem request_tools_and_logprobs request n σ :
  exists payload σ',
    convert_chat_completion_request request n σ = (Ok payload, σ') /\
    payload_get σ' payload "tools"
    = match ChatCompletionRequest.tools request with
      | Some (tool :: tools) => Some (VTools (tool :: tools))
      | _ => None
      end /\
    match ChatCompletionRequest.logprobs request with
    | Some logprobs =>
        payload_get σ' payload "logprobs" = Some (VBool true) /\
        payload_get σ' payload "top_logprobs"
        = Some (VInt (LogProbConfig.top_k logprobs))
    | None =>
        payload_get σ' payload "logprobs" = None /\
        payload_get σ' payload "top_logprobs" = None
    end.
Proof.
  destruct (request_mapper_run_messages request n σ)
    as (nvext & extra_body & payload & locs & objects & Hrun & Hne1 & Hne2 & Hne3 & _).
  eexists _, _. split; [exact Hrun|].
  rewrite !payload_get_canonical by done. unfold payload_entries.
  rewrite !lookup_sampling_entries by done.
  split.
  - rewrite lookup_logprobs_entries by done. unfold tools_entries_of.
    destruct (ChatCompletionRequest.tools request) as [[|tool tools]|];
      try reflexivity.
    destruct (ChatCompletionRequest.tool_choice request);
      rewrite ?lookup_insert_ne by done; apply lookup_insert_eq.
  - unfold logprobs_entries_of.
    destruct (ChatCompletionRequest.logprobs request) as [logprobs|].
    + rewrite lookup_insert_ne by done. rewrite !lookup_insert_eq. done.
    + rewrite !lookup_tools_entries by done. done.
Qed.

(** X14. The payload has a max_tokens entry exactly when the request has
    sampling parameters whose max_tokens is present and not zero, and the
    entry is that value: a max_tokens of zero is dropped like an absent
    one, whatever the strategy. *)
Theorem request_max_tokens request n σ :
  exists payload σ',
    convert_chat_completion_request request n σ = (Ok payload, σ') /\
    payload_get σ' payload "max_tokens"
    = match ChatCompletionRequest.sampling_params request with
      | Some sp =>
          match SamplingParams.max_tokens sp with
          | Some max_tokens =>
              if (max_tokens =? 0)%Z then None else Some (VInt max_tokens)
          | None => None
          end
      | None => None
      end.
Proof.
  destruct (request_mapper_run_messages request n σ)
    as (nvext & extra_body & payload & locs & objects & Hrun & Hne1 & Hne2 & Hne3 & _).
  eexists _, _. split; [exact Hrun|].
  rewrite payload_get_canonical by done. apply payload_entries_max_tokens.
Qed.

(** X15. Read through the payload (extra_body, then nvext), the
    provider-specific dictionary holds the repetition penalty whenever the
    request has sampling parameters, whatever the strategy, and holds no
    key other than repetition_penalty and top_k; without sampling
    parameters it is empty. *)
Theorem request_nvext_entries request n σ :
  exists payload σ',
    convert_chat_completion_request request n σ = (Ok payload, σ') /\
    nvext_get σ' payload "repetition_penalty"
    = (fun sp => VFloat (SamplingParams.repetition_penalty sp))
        <$> ChatCompletionRequest.sampling_params request /\
    (forall k, is_Some (nvext_get σ' payload k) ->
       k = "repetition_penalty" \/ k = "top_k") /\
    (forall k, is_Some (nvext_get σ' payload k) ->
       is_Some (ChatCompletionRequest.sampling_params request)).
Proof.
  destruct (request_mapper_run_messages request n σ)
    as (nvext & extra_body & payload & locs & objects & Hrun & Hne1 & Hne2 & Hne3 & _).
  eexists _, _. split; [exact Hrun|].
  split; [|split]; [|intros k|intros k];
    rewrite nvext_get_canonical by (done || apply payload_entries_extra_body).
  - apply nvext_entries_repetition_penalty.
  - apply nvext_entries_keys.
  - unfold nvext_entries.
    destruct (ChatCompletionRequest.sampling_params request); [eauto|].
    rewrite lookup_empty. intros [? ?]. discriminate.
Qed.

(** X16. The payload never has a key outside the thirteen known ones; in
    particular top_k and repetition_penalty never appear at its top level.
    It has a temperature entry exactly under the greedy strategy and a
    top_p entry exactly under the top_p strategy. *)
Theorem request_payload_keys request n σ :
  exists payload σ',
    convert_chat_completion_request request n σ = (Ok payload, σ') /\
    (forall k, is_Some (payload_get σ' payload k) -> k ∈ payload_keys) /\
    payload_get σ' payload "top_k" = None /\
    payload_get σ' payload "repetition_penalty" = None /\
    (is_Some (payload_get σ' payload "temperature") <->
     exists sp, ChatCompletionRequest.sampling_params request = Some sp
                /\ SamplingParams.strategy sp = "greedy") /\
    (is_Some (payload_get σ' payload "top_p") <->
     exists sp, ChatCompletionRequest.sampling_params request = Some sp
                /\ SamplingParams.strategy sp = "top_p").
Proof.
  destruct (request_mapper_run_messages request n σ)
    as (nvext & extra_body & payload & locs & objects & Hrun & Hne1 & Hne2 & Hne3 & _).
  eexists _, _. split; [exact Hrun|].
  rewrite !payload_get_canonical by done.
  split.
  { intros k Hk. rewrite payload_get_canonical in Hk by done.
    destruct (decide (k ∈ payload_keys)) as [|Hnot]; [assumption|].
    rewrite (payload_entries_other _ _ _ _ _ Hnot) in Hk.
    destruct Hk; discriminate. }
  split; [apply payload_entries_other; unfold payload_keys;
          rewrite !not_elem_of_cons; repeat split; try discriminate;
          apply not_elem_of_nil|].
  split; [apply payload_entries_other; unfold payload_keys;
          rewrite !not_elem_of_cons; repeat split; try discriminate;
          apply not_elem_of_nil|].
  rewrite payload_entries_temperature, payload_entries_top_p.
  destruct (ChatCompletionRequest.sampling_params request) as [sp|].
  - split.
    + destruct (String.eqb (SamplingParams.strategy sp) "greedy") eqn:H.
      * apply String.eqb_eq in H. split; eauto.
      * apply String.eqb_neq in H. split.
        -- intros [? ?]; discriminate.
        -- intros (sp' & Hsp & Hs). congruence.
    + destruct (String.eqb (SamplingParams.strategy sp) "top_p") eqn:H.
      * apply String.eqb_eq in H. split; eauto.
      * apply String.eqb_neq in H. split.
        -- intros [? ?]; discriminate.
        -- intros (sp' & Hsp & Hs). congruence.
  - split; split; try (intros [? ?]; discriminate);
      intros (sp' & Hsp & _); discriminate.
Qed.

(** X17. The request mapper always returns. Its result is a dictionary
    created by the call; every dictionary that existed before is unchanged;
    and at most one warning is issued, and only under the top_k strategy. *)
Theorem request_mapper_frame request n σ :
  exists payload σ' warnings,
    convert_chat_completion_request request n σ = (Ok payload, σ') /\
    Store.objects σ !! payload = None /\
    is_Some (Store.objects σ' !! payload) /\
    (forall l d, Store.objects σ !! l = Some d -> Store.objects σ' !! l = Some d) /\
    Store.warned σ' = Store.warned σ ++ warnings /\
    (length warnings <= 1)%nat /\
    (warnings <> [] ->
     exists sp, ChatCompletionRequest.sampling_params request = Some sp
                /\ SamplingParams.strategy sp = "top_k").
Proof.
  destruct (request_mapper_run_messages request n σ)
    as (nvext & extra_body & payload & locs & objects & Hrun & Hne1 & Hne2 & Hne3
        & Hframe & _ & Hfresh & _).
  eexists _, _, (request_warnings request). split; [exact Hrun|].
  cbn [Store.objects Store.warned].
  split; [exact Hfresh|].
  split; [rewrite lookup_insert_ne by done; rewrite lookup_insert_eq; eauto|].
  split.
  { intros l d Hl. destruct (Hframe l d Hl) as (Hobj & H1 & H2 & H3).
    rewrite lookup_canonical_other by done. exact Hobj. }
  split; [reflexivity|]. apply request_warnings_length.
Qed.

(** *** Concrete runs of the stream mapper *)

Lemma convertible_stream_lifecycle_witness :
  exists evs,
    run_stream Json.loads
      [text_chunk (Some "Hel") None; tool_chunk (Some "x") [call_1_f; call_x1]]
    = (evs, None) /\
    lifecycle (map event_type_of evs) = true /\
    (2 + 1 <= length evs <= 2 * 2 + 1)%nat.
Proof.
  apply (convertible_stream_lifecycle Json.loads
           [text_chunk (Some "Hel") None; tool_chunk (Some "x") [call_1_f; call_x1]]).
  - reflexivity.
  - discriminate.
Defined.

Lemma complete_event_carries_last_finish_reason_witness :
  exists evs,
    run_stream Json.loads
      [text_chunk (Some "a") (Some "length"); text_chunk (Some "b") None]
    = (evs ++ [complete_event (Some StopReason.end_of_turn)], None).
Proof.
  apply (complete_event_carries_last_finish_reason Json.loads
           [text_chunk (Some "a") (Some "length")] (text_chunk (Some "b") None)
           (ChunkChoice.mk (ChoiceDelta.mk (Some "b") None) None None) []).
  - reflexivity.
  - reflexivity.
Defined.

Lemma text_stream_deltas_witness :
  exists evs,
    run_stream Json.loads
      [text_chunk (Some "Hel") None; text_chunk None None; text_chunk (Some "lo") (Some "stop")]
    = (evs, None) /\
    map event_delta evs
    = [ChatCompletionResponseEvent.Str "Hel"; ChatCompletionResponseEvent.Str "";
       ChatCompletionResponseEvent.Str "lo"; ChatCompletionResponseEvent.Str ""].
Proof.
  apply (text_stream_deltas Json.loads
           [text_chunk (Some "Hel") None; text_chunk None None;
            text_chunk (Some "lo") (Some "stop")]).
  reflexivity.
Defined.

Lemma chunk_without_choices_raises_witness :
  exists evs sr,
    run_stream Json.loads [text_chunk (Some "Hel") None]
    = (evs ++ [complete_event sr], None) /\
    run_stream Json.loads
      ([text_chunk (Some "Hel") None]
       ++ OpenAIChatCompletionChunk.mk [] :: [text_chunk (Some "lo") (Some "stop")])
    = (evs, Some IndexError).
Proof.
  apply (chunk_without_choices_raises Json.loads
           [text_chunk (Some "Hel") None] (OpenAIChatCompletionChunk.mk [])
           [text_chunk (Some "lo") (Some "stop")]).
  - reflexivity.
  - reflexivity.
Defined.

Lemma events_of_prefix_are_kept_witness :
  exists rest,
    fst (run_stream Json.loads
           ([text_chunk (Some "Hel") None] ++ [tool_chunk None [call_bad]]))
    = [event ChatCompletionResponseEventType.start
         (ChatCompletionResponseEvent.Str "Hel") None] ++ rest.
Proof.
  apply (events_of_prefix_are_kept Json.loads
           [text_chunk (Some "Hel") None] [tool_chunk None [call_bad]]
           [event ChatCompletionResponseEventType.start
              (ChatCompletionResponseEvent.Str "Hel") None]
           (Some StopReason.end_of_turn)).
  reflexivity.
Defined.

Lemma stream_ends_normally_witness :
  snd (run_stream Json.loads
         [text_chunk (Some "Hel") None; tool_chunk None [call_x1]]) = None.
Proof.
  apply (proj1 (stream_ends_normally Json.loads
                  [text_chunk (Some "Hel") None; tool_chunk None [call_x1]])).
  reflexivity.
Defined.

Lemma logprobs_without_content_raise_witness :
  exists evs sr,
    run_stream Json.loads [text_chunk (Some "Hel") None]
    = (evs ++ [complete_event sr], None) /\
    run_stream Json.loads
      ([text_chunk (Some "Hel") None]
       ++ chunk_with_empty_logprobs :: [text_chunk (Some "lo") (Some "stop")])
    = (evs, Some TypeError).
Proof.
  apply (proj2 (proj2 (proj2 (logprobs_without_content_raise Json.loads)))
           [text_chunk (Some "Hel") None] chunk_with_empty_logprobs
           [text_chunk (Some "lo") (Some "stop")]
           (ChunkChoice.mk (ChoiceDelta.mk (Some "x") None) None
              (Some (OpenAIChoiceLogprobs.mk None)))
           [] eq_refl eq_refl eq_refl).
  left. reflexivity.
Defined.

(** *** The configure subcommand *)

Lemma endswith_refl s : endswith s s = true.
Proof. destruct s; cbn [endswith]; rewrite String.eqb_refl; reflexivity. Qed.

Lemma endswith_app s suffix : endswith (s +:+ suffix) suffix = true.
Proof.
  induction s as [|a s IH]; [apply endswith_refl|].
  change (String a s +:+ suffix) with (String a (s +:+ suffix)).
  cbn [endswith]. rewrite IH. apply orb_true_r.
Qed.

(** [endswith] is the suffix relation. *)
Lemma endswith_suffix s suffix :
  endswith s suffix = true <-> exists stem, s = stem +:+ suffix.
Proof.
  split.
  - induction s as [|a s IH]; cbn [endswith]; rewrite orb_true_iff.
    + intros [H|H]; [|discriminate]. apply String.eqb_eq in H. exists "". exact H.
    + intros [H|H].
      * apply String.eqb_eq in H. exists "". exact H.
      * destruct (IH H) as [stem ->]. exists (String a stem). reflexivity.
  - intros [stem ->]. apply endswith_app.
Qed.

Lemma build_file_name_fixed build_name :
  build_file_name (build_name +:+ ".yaml") = build_name +:+ ".yaml".
Proof. unfold build_file_name. rewrite endswith_app. reflexivity. Qed.

Lemma build_file_name_idempotent build_name :
  build_file_name (build_file_name build_name) = build_file_name build_name.
Proof.
  unfold build_file_name at 2 3.
  destruct (endswith build_name ".yaml") eqn:H; cbn [negb].
  - unfold build_file_name. rewrite H. reflexivity.
  - apply build_file_name_fixed.
Qed.

Section ConfigureProperties.

Context {P R : Type}.
Variable builds_path : string -> string -> string.
Variable load_config : string -> cli_result (PackageConfig.t P R).
Variable configure_api_providers : P -> Cmd P.
Variable to_json : PackageConfig.t P R -> cli_result json.
Variable yaml_dump : json -> cli_result string.

(** X18. The name of the build file always ends with the extension .yaml:
    the extension is appended to a build name that lacks it, and a build
    name that has it is used as given, so that the extension is never
    doubled. The command therefore does the same whether the build name is
    given with the extension or without it. *)
Theorem build_name_with_or_without_extension api build_name w :
  (exists stem, build_file_name build_name = stem +:+ ".yaml") /\
  build_file_name (build_name +:+ ".yaml") = build_name +:+ ".yaml" /\
  (build_file_name build_name = build_name \/
   build_file_name build_name = build_name +:+ ".yaml"
   /\ _run_api_configure_cmd builds_path load_config configure_api_providers
        to_json yaml_dump api (build_name +:+ ".yaml") w
      = _run_api_configure_cmd builds_path load_config configure_api_providers
          to_json yaml_dump api build_name w).
Proof.
  split; [|split; [apply build_file_name_fixed|]].
  - apply endswith_suffix. unfold build_file_name.
    destruct (endswith build_name ".yaml") eqn:H; cbn [negb];
      [exact H|apply endswith_app].
  - unfold _run_api_configure_cmd. rewrite build_file_name_fixed.
    unfold build_file_name.
    destruct (endswith build_name ".yaml"); cbn [negb]; [left|right]; auto.
Qed.

(** X19. When the build file does not exist, the command ends through the
    parser's error, with exit status 2 and a message that names the file
    and asks to run the build first; no file is created or changed, the
    providers are not configured and nothing is printed. *)
Theorem missing_build_file_is_an_error api build_name w :
  World.files w !! builds_path api (build_file_name build_name) = None ->
  _run_api_configure_cmd builds_path load_config configure_api_providers
    to_json yaml_dump api build_name w
  = (Raised
       (SystemExit 2
          (could_not_find (builds_path api (build_file_name build_name)))),
     w).
Proof.
  intros Hmissing. unfold _run_api_configure_cmd, cli_bind, path_exists.
  rewrite Hmissing. rewrite bool_decide_eq_false_2 by (intros [? ?]; discriminate).
  reflexivity.
Qed.

(** With the build file in place, the command is the configuration of
    that file. *)
Lemma run_api_configure_cmd_found api build_name text w :
  World.files w !! builds_path api (build_file_name build_name) = Some text ->
  _run_api_configure_cmd builds_path load_config configure_api_providers
    to_json yaml_dump api build_name w
  = configure_llama_provider load_config configure_api_providers to_json yaml_dump
      (builds_path api (build_file_name build_name)) w.
Proof.
  intros Hfile. unfold _run_api_configure_cmd, cli_bind at 1. unfold path_exists.
  rewrite Hfile. rewrite bool_decide_eq_true_2 by eauto. reflexivity.
Qed.

(** X20. When the build file loads, the providers are configured and the
    result serialises, the file is rewritten with the serialised
    configuration, in which only the providers have been replaced; the
    other files are as the configuration of the providers left them, and
    the confirmation is the last line printed. *)
Theorem configured_providers_are_written
  api build_name text config providers to_write text' w w1 :
  World.files w !! builds_path api (build_file_name build_name) = Some text ->
  load_config text = Returned config ->
  configure_api_providers (PackageConfig.providers config) w = (Returned providers, w1) ->
  to_json (PackageConfig.mk providers (PackageConfig.other_fields config))
  = Returned to_write ->
  yaml_dump to_write = Returned text' ->
  _run_api_configure_cmd builds_path load_config configure_api_providers
    to_json yaml_dump api build_name w
  = (Returned tt,
     World.mk
       (<[builds_path api (build_file_name build_name) := text']> (World.files w1))
       (World.printed w1
        ++ [configuration_written (builds_path api (build_file_name build_name))])).
Proof.
  intros Hfile Hload Hconf Hjson Hdump.
  rewrite (run_api_configure_cmd_found _ _ _ _ Hfile).
  unfold configure_llama_provider, cli_bind, read_file, cli_lift.
  rewrite Hfile, Hload, Hconf. cbn [open_for_writing]. rewrite Hjson, Hdump.
  cbn [file_write py_print World.files World.printed].
  rewrite alter_insert_eq. reflexivity.
Qed.

(** X21. The build file is truncated before the new configuration is
    serialised: when the serialisation raises, after the providers have
    been configured, the exception leaves the command and the build file is
    left empty, its previous contents lost; nothing is printed. *)
Theorem failed_serialisation_empties_build_file
  api build_name text config providers e w w1 :
  World.files w !! builds_path api (build_file_name build_name) = Some text ->
  load_config text = Returned config ->
  configure_api_providers (PackageConfig.providers config) w = (Returned providers, w1) ->
  to_json (PackageConfig.mk providers (PackageConfig.other_fields config)) = Raised e
  \/ (exists to_write,
        to_json (PackageConfig.mk providers (PackageConfig.other_fields config))
        = Returned to_write
        /\ yaml_dump to_write = Raised e) ->
  _run_api_configure_cmd builds_path load_config configure_api_providers
    to_json yaml_dump api build_name w
  = (Raised e,
     World.mk
       (<[builds_path api (build_file_name build_name) := ""]> (World.files w1))
       (World.printed w1)).
Proof.
  intros Hfile Hload Hconf Hfail.
  rewrite (run_api_configure_cmd_found _ _ _ _ Hfile).
  unfold configure_llama_provider, cli_bind, read_file, cli_lift.
  rewrite Hfile, Hload, Hconf. cbn [open_for_writing].
  destruct Hfail as [Hjson | (to_write & Hjson & Hdump)].
  - rewrite Hjson. reflexivity.
  - rewrite Hjson, Hdump. reflexivity.
Qed.

(** X22. A build file that cannot be loaded, and a configuration of the
    providers that raises, leave the build file as it was: the exception
    leaves the command before the file is opened for writing. *)
Theorem failed_configuration_keeps_build_file api build_name text w :
  World.files w !! builds_path api (build_file_name build_name) = Some text ->
  match load_config text with
  | Raised e =>
      _run_api_configure_cmd builds_path load_config configure_api_providers
        to_json yaml_dump api build_name w
      = (Raised e, w)
  | Returned config =>
      forall e w1,
        configure_api_providers (PackageConfig.providers config) w = (Raised e, w1) ->
        _run_api_configure_cmd builds_path load_config configure_api_providers
          to_json yaml_dump api build_name w
        = (Raised e, w1)
  end.
Proof.
  intros Hfile.
  rewrite (run_api_configure_cmd_found _ _ _ _ Hfile).
  unfold configure_llama_provider, cli_bind, read_file, cli_lift.
  rewrite Hfile. destruct (load_config text) as [config|e]; [|reflexivity].
  intros e w1 Hconf. rewrite Hconf. reflexivity.
Qed.

End ConfigureProperties.

(** *** Concrete runs of the configure subcommand *)

Lemma missing_build_file_is_an_error_witness :
  _run_api_configure_cmd demo_builds_path demo_load_config
    demo_configure_api_providers demo_to_json demo_yaml_dump
    "inference" "remote" demo_world
  = (Raised
       (SystemExit 2
          "Could not find builds/inference/remote.yaml. Please run `llama api build` first"),
     demo_world).
Proof.
  apply (missing_build_file_is_an_error demo_builds_path demo_load_config
           demo_configure_api_providers demo_to_json demo_yaml_dump
           "inference" "remote" demo_world).
  reflexivity.
Defined.

Lemma configured_providers_are_written_witness :
  _run_api_configure_cmd demo_builds_path demo_load_config
    demo_configure_api_providers demo_to_json demo_yaml_dump
    "inference" "local" demo_world
  = (Returned tt,
     World.mk
       (<["builds/inference/local.yaml" := "meta-reference port=5000"]>
          (World.files demo_world))
       ["YAML configuration has been written to builds/inference/local.yaml"]).
Proof.
  apply (configured_providers_are_written demo_builds_path demo_load_config
           demo_configure_api_providers demo_to_json demo_yaml_dump
           "inference" "local" "meta-reference"
           (PackageConfig.mk "meta-reference" tt) "meta-reference port=5000"
           (JStr "meta-reference port=5000") "meta-reference port=5000"
           demo_world demo_world);
    reflexivity.
Defined.

Lemma failed_serialisation_empties_build_file_witness :
  _run_api_configure_cmd demo_builds_path demo_load_config
    demo_configure_api_providers failing_to_json demo_yaml_dump
    "inference" "local.yaml" demo_world
  = (Raised (CollaboratorError "TypeError"),
     World.mk
       (<["builds/inference/local.yaml" := ""]> (World.files demo_world)) []).
Proof.
  apply (failed_serialisation_empties_build_file demo_builds_path demo_load_config
           demo_configure_api_providers failing_to_json demo_yaml_dump
           "inference" "local.yaml" "meta-reference"
           (PackageConfig.mk "meta-reference" tt) "meta-reference port=5000"
           (CollaboratorError "TypeError") demo_world demo_world);
    try reflexivity.
  left. reflexivity.
Defined.

Lemma failed_configuration_keeps_build_file_witness :
  _run_api_configure_cmd demo_builds_path
    (fun _ => Raised (CollaboratorError "YAMLError"))
    demo_configure_api_providers demo_to_json demo_yaml_dump
    "inference" "local" demo_world
  = (Raised (CollaboratorError "YAMLError"), demo_world).
Proof.
  apply (failed_configuration_keeps_build_file demo_builds_path
           (fun _ => Raised (CollaboratorError "YAMLError"))
           demo_configure_api_providers demo_to_json demo_yaml_dump
           "inference" "local" "meta-reference" demo_world).
  reflexivity.
Defined.
